(** * rblineprof: the line profiler of ext/rblineprof.c

    A shallow embedding of the C extension and the properties of its
    timing engine, file registry and session controller.

    Conventions of the embedding.
    - [uint64_t] values are integers of [Z]; subtraction and [+=] wrap
      modulo 2^64 ([u64]).
    - A line number is what the host's [nd_line] macro extracts from a
      node: an unsigned bit field.  It is a [nat], and [line + 100] stays
      far below [LONG_MAX].
    - Source file names are interned by the host ([rb_source_filename]):
      two names are the same pointer exactly when they are the same
      string, so a [char *] file name is a [string] and pointer equality
      is string equality.  A NULL pointer is [None].
    - The [st_table] keyed by those pointers is a [gmap string record].
      A record is either the sentinel [Qnil] or a pointer to a heap
      [sourcefile_t]; the table owns the structure it points to.
    - Behaviour the C standard leaves undefined (a store outside an
      array, a load through a pointer that is not one) is an explicit
      failure: [None], or [Crashed] at the entry point.
    - What the machine decides is an input: the clock reading of each
      hook call, the bytes [realloc] hands back beyond the old block, and
      the value [st_foreach] reads after a callback returned none. *)

From stdpp Require Import base option list gmap strings fin_maps.
From Stdlib Require Import ZArith Lia.

Local Open Scope Z_scope.

(** ** Machine integers *)

Definition UINT64_MODULUS : Z := 2 ^ 64.

Definition u64 (z : Z) : Z := z mod UINT64_MODULUS.

(** ** Data model (lines 13-38) *)

Record sourcefile_t := mk_sourcefile {
  filename : option string;
  lines : option (list Z);
  nlines : nat;
  last_time : Z;
  last_line : nat
}.

(** [calloc(1, sizeof(sourcefile_t))], and the static initialiser of
    [rblineprof.file]: every field zero. *)
Definition zeroed_sourcefile : sourcefile_t :=
  mk_sourcefile None None 0%nat 0 0%nat.

(** A [VALUE] of class Regexp, seen through the one host function the
    extension calls on it: [rb_reg_search(re, str, 0, 0)], the position of
    the first match or a negative number. *)
Record regexp := mk_regexp { rb_reg_search : string → Z }.

(** What the [st_table] stores under a file name. *)
Inductive record :=
  | Qnil
  | Ptr (sf : sourcefile_t).

Record rblineprof_t := mk_rblineprof {
  enabled : bool;
  source_filename : option string;
  file : sourcefile_t;
  source_regex : option regexp;
  files : gmap string record
}.

(** The static initialiser followed by [Init_rblineprof] (line 206). *)
Definition Init_rblineprof : rblineprof_t :=
  mk_rblineprof false None zeroed_sourcefile None ∅.

(** Field updates. *)
Definition set_filename (f : option string) (sf : sourcefile_t) : sourcefile_t :=
  mk_sourcefile f (lines sf) (nlines sf) (last_time sf) (last_line sf).

Definition set_lines (l : option (list Z)) (n : nat) (sf : sourcefile_t) : sourcefile_t :=
  mk_sourcefile (filename sf) l n (last_time sf) (last_line sf).

Definition set_last (t : Z) (line : nat) (sf : sourcefile_t) : sourcefile_t :=
  mk_sourcefile (filename sf) (lines sf) (nlines sf) t line.

Definition set_enabled (b : bool) (st : rblineprof_t) : rblineprof_t :=
  mk_rblineprof b (source_filename st) (file st) (source_regex st) (files st).

Definition set_file (sf : sourcefile_t) (st : rblineprof_t) : rblineprof_t :=
  mk_rblineprof (enabled st) (source_filename st) sf (source_regex st) (files st).

Definition set_files (t : gmap string record) (st : rblineprof_t) : rblineprof_t :=
  mk_rblineprof (enabled st) (source_filename st) (file st) (source_regex st) t.

(** ** Line events

    One call of the hook: the node's file and line, the value
    [timeofday_usec] returns if the call reads the clock (a [uint64_t]:
    microseconds since the epoch), and the contents of the memory
    [realloc] appends if the call grows the array ([ev_heap i] is what
    slot [i] holds).  Allocation itself is taken to succeed. *)
Record line_event := mk_event {
  nd_file : string;
  nd_line : nat;
  ev_now : Z;
  ev_heap : nat → Z
}.

(** ** The allocator *)

(** [calloc(n, sizeof(uint64_t))]: [n] zeroed counters. *)
Definition calloc_lines (n : nat) : list Z := replicate n 0.

(** [realloc(old, sizeof(uint64_t) * n)]: the old contents up to the
    smaller of both sizes; the rest is not initialised.  A NULL [old]
    is the empty block. *)
Definition realloc_lines (old : list Z) (n : nat) (heap : nat → Z) : list Z :=
  take n old ++ (heap <$> seq (length old) (n - length old)).

(** ** The timing engine (lines 82-104)

    [record_sample sf line now heap] is the body of [if (sourcefile)]
    for the structure [sf].  The store of line 99 fails when
    [last_line] is not an index of the array. *)
Definition allocate_first (line : nat) (sf : sourcefile_t) : sourcefile_t :=
  match lines sf with
  | None => set_lines (Some (calloc_lines (line + 100))) (line + 100) sf
  | Some _ => sf
  end.

Definition grow_if_necessary (line : nat) (heap : nat → Z) (sf : sourcefile_t)
  : sourcefile_t :=
  if decide (nlines sf ≤ line)%nat then
    set_lines (Some (realloc_lines (default [] (lines sf)) (line + 100) heap))
              (line + 100) sf
  else sf.

Definition store_sample (delta : Z) (sf : sourcefile_t) : option sourcefile_t :=
  l ← lines sf;
  old ← l !! last_line sf;
  Some (set_lines (Some (<[last_line sf := u64 (old + delta)]> l)) (nlines sf) sf).

Definition record_sample (sf : sourcefile_t) (line : nat) (now : Z) (heap : nat → Z)
  : option sourcefile_t :=
  sf' ← (if decide (last_time sf = 0) then Some sf
         else store_sample (u64 (now - last_time sf))
                (grow_if_necessary line heap (allocate_first line sf)));
  Some (set_last now line sf').

(** ** The hook (lines 49-105)

    The result pairs the file names handed to [rb_reg_search] during the
    call with the state after it, [None] when the call went wrong. *)
Definition profiler_hook (st : rblineprof_t) (e : line_event)
  : list string * option rblineprof_t :=
  let file_ := nd_file e in
  let line := nd_line e in
  match source_filename st with
  | Some name =>
      if decide (name = file_) then
        ([], sf ← record_sample (set_filename (Some file_) (file st))
                     line (ev_now e) (ev_heap e);
             Some (set_file sf st))
      else ([], Some st)
  | None =>
      match files st !! file_ with
      | Some Qnil => ([], Some st)
      | Some (Ptr sf) =>
          ([], sf' ← record_sample sf line (ev_now e) (ev_heap e);
               Some (set_files (<[file_ := Ptr sf']> (files st)) st))
      | None =>
          match source_regex st with
          | None => ([], None)
          | Some re =>
              if decide (0 ≤ rb_reg_search re file_) then
                ([file_],
                 sf' ← record_sample (set_filename (Some file_) zeroed_sourcefile)
                         line (ev_now e) (ev_heap e);
                 Some (set_files (<[file_ := Ptr sf']> (files st)) st))
              else
                ([file_], Some (set_files (<[file_ := Qnil]> (files st)) st))
          end
      end
  end.

(** [rb_yield(Qnil)] with the hook installed: the block runs and every
    line it executes calls the hook.  The log of pattern searches is kept
    up to the call that fails. *)
Fixpoint run_block (st : rblineprof_t) (blk : list line_event)
  : list string * option rblineprof_t :=
  match blk with
  | [] => ([], Some st)
  | e :: blk' =>
      match profiler_hook st e with
      | (log, None) => (log, None)
      | (log, Some st') =>
          let '(log', r) := run_block st' blk' in (log ++ log', r)
      end
  end.

(** ** The host's table iteration

    [st_foreach] belongs to the interpreter (st.c), not to the
    extension.  It calls [func] on every entry and acts on the value
    returned: [ST_CONTINUE] (and [ST_CHECK] on a table the callback did
    not modify) moves on, [ST_STOP] ends the iteration, [ST_DELETE] unlinks
    the entry and moves on.  The callback threads [arg] and may fail. *)
Inductive st_retval := ST_CONTINUE | ST_STOP | ST_DELETE | ST_CHECK.

Fixpoint st_foreach_entries {A} (func : string → record → A → option (st_retval * A))
    (entries : list (string * record)) (tbl : gmap string record) (arg : A)
  : option (gmap string record * A) :=
  match entries with
  | [] => Some (tbl, arg)
  | (key, rec) :: rest =>
      match func key rec arg with
      | None => None
      | Some (ST_CONTINUE, arg') | Some (ST_CHECK, arg') =>
          st_foreach_entries func rest tbl arg'
      | Some (ST_STOP, arg') => Some (tbl, arg')
      | Some (ST_DELETE, arg') => st_foreach_entries func rest (delete key tbl) arg'
      end
  end.

Definition st_foreach {A} (tbl : gmap string record)
    (func : string → record → A → option (st_retval * A)) (arg : A)
  : option (gmap string record * A) :=
  st_foreach_entries func (map_to_list tbl) tbl arg.

(** ** Callbacks (lines 114-140) *)

(** Line 118 leaves the function without a value for the sentinel;
    [stale] is what [st_foreach] then finds in its place.  The hook
    never stores a NULL record, so that half of the test has no case.
    The [free] calls have no counterpart: a deleted entry takes its
    structure with it. *)
Definition cleanup_files (stale : st_retval) (key : string) (rec : record) (arg : unit)
  : option (st_retval * unit) :=
  match rec with
  | Qnil => Some (stale, arg)
  | Ptr _ => Some (ST_DELETE, arg)
  end.

(** The loop [for (i=0; i<nlines; i++) rb_ary_store(ary, i, ULL2NUM(lines[i]))]
    shared by lines 135-136 and 182-183.  Reading [lines[i]] fails
    outside the array or through a NULL [lines]. *)
Definition line_array (sf : sourcefile_t) : option (list Z) :=
  mapM (λ i, l ← lines sf; l !! i) (seq 0 (nlines sf)).

(** [summarize_files] casts the record to a [sourcefile_t *] and reads
    through it without looking at the sentinel: on [Qnil] the load of
    [sourcefile->nlines] is a load from address 4. *)
Definition summarize_files (key : string) (rec : record) (ret : gmap string (list Z))
  : option (st_retval * gmap string (list Z)) :=
  match rec with
  | Qnil => None
  | Ptr sf =>
      ary ← line_array sf;
      name ← filename sf;
      Some (ST_CONTINUE, <[name := ary]> ret)
  end.

(** ** The entry point (lines 142-190) *)

(** The argument of [lineprof] by its class: a String (as the C string
    [StringValuePtr] yields), a Regexp, or an object of any other class. *)
Inductive VALUE :=
  | VString (s : string)
  | VRegexp (re : regexp)
  | VObject.

Definition rb_eArgError : string := "ArgumentError".

Inductive outcome :=
  | Returned (ret : gmap string (list Z)) (st : rblineprof_t)
  | Raised (cls message : string) (st : rblineprof_t)
  | Crashed.

(** Lines 151-160. *)
Definition select_files (filename_ : VALUE) (st : rblineprof_t) : option rblineprof_t :=
  match filename_ with
  | VString s =>
      Some (mk_rblineprof (enabled st) (Some s) (file st) (source_regex st) (files st))
  | VRegexp re =>
      Some (mk_rblineprof (enabled st) None (file st) (Some re) (files st))
  | VObject => None
  end.

(** Lines 164-168: the array of the single file structure is freed;
    its other fields stay. *)
Definition free_lines (sf : sourcefile_t) : sourcefile_t :=
  match lines sf with
  | Some _ => set_lines None 0 sf
  | None => sf
  end.

(** Lines 162-168. *)
Definition cleanup (stale : st_retval) (st : rblineprof_t) : option rblineprof_t :=
  '(tbl, _) ← st_foreach (files st) (cleanup_files stale) ();
  Some (set_file (free_lines (file st)) (set_files tbl st)).

(** Lines 176-189. *)
Definition report (st : rblineprof_t) : option (gmap string (list Z)) :=
  match source_filename st with
  | Some name => ary ← line_array (file st); Some {[ name := ary ]}
  | None => snd <$> st_foreach (files st) summarize_files ∅
  end.

(** [lineprof stale st filename_ blk]: the call [lineprof(filename_)] in
    state [st] with the block [blk] ([None]: no block given).  A block is
    the list of line events its execution produces; it returns
    normally ([lineprof_block] below has the blocks that do not). *)
Definition lineprof (stale : st_retval) (st : rblineprof_t) (filename_ : VALUE)
    (blk : option (list line_event)) : outcome :=
  match blk with
  | None => Raised rb_eArgError "block required" st
  | Some body =>
      if enabled st then Raised rb_eArgError "profiler is already enabled" st
      else
        match select_files filename_ st with
        | None => Raised rb_eArgError "argument must be String or Regexp" st
        | Some st1 =>
            match cleanup stale st1 with
            | None => Crashed
            | Some st2 =>
                match run_block (set_enabled true st2) body with
                | (_, None) => Crashed
                | (_, Some st3) =>
                    let st4 := set_enabled false st3 in
                    match report st4 with
                    | None => Crashed
                    | Some ret => Returned ret st4
                    end
                end
            end
        end
  end.

(** ** Blocks that do not come back

    [rb_yield] on line 172 is not wrapped in [rb_ensure]: when the block
    leaves by an exception (or any other non-local exit), control does not
    come back to [lineprof] and lines 173-174 are not run.  A block is
    then the events it produces and the way it ends. *)
Inductive block_end :=
  | Completes
  | Unwinds (cls message : string).

(** [lineprof] with such a block.  When the block unwinds, what it
    raised passes through in the state the last event left: the hook is
    not removed and [enabled] stays true. *)
Definition lineprof_block (stale : st_retval) (st : rblineprof_t) (filename_ : VALUE)
    (blk : option (list line_event * block_end)) : outcome :=
  match blk with
  | None => Raised rb_eArgError "block required" st
  | Some (body, fin) =>
      if enabled st then Raised rb_eArgError "profiler is already enabled" st
      else
        match select_files filename_ st with
        | None => Raised rb_eArgError "argument must be String or Regexp" st
        | Some st1 =>
            match cleanup stale st1 with
            | None => Crashed
            | Some st2 =>
                match run_block (set_enabled true st2) body with
                | (_, None) => Crashed
                | (_, Some st3) =>
                    match fin with
                    | Unwinds cls message => Raised cls message st3
                    | Completes =>
                        let st4 := set_enabled false st3 in
                        match report st4 with
                        | None => Crashed
                        | Some ret => Returned ret st4
                        end
                    end
                end
            end
        end
  end.

(** ** The mark function (lines 107-112 and 192-201)

    What the two functions hand to the host's [rb_source_filename], call
    by call: the configured file name, or a record of the table cast to
    [char *]. *)
Inductive marked :=
  | MarkName (name : string)
  | MarkRecord (rec : record).

Definition gc_mark_files (key : string) (rec : record) (arg : list marked)
  : option (st_retval * list marked) :=
  Some (ST_CONTINUE, arg ++ [MarkRecord rec]).

Definition lineprof_mark (st : rblineprof_t) : list marked :=
  if enabled st then
    match source_filename st with
    | Some name => [MarkName name]
    | None => default [] (snd <$> st_foreach (files st) gc_mark_files [])
    end
  else [].

(** ** Events and sessions used in the examples *)

(** Memory that happens to read as zero. *)
Definition no_heap : nat → Z := λ _, 0.

Definition ev (f : string) (line : nat) (t : Z) : line_event :=
  mk_event f line t no_heap.

(** A pattern that matches the file name ["a"] and no other. *)
Definition only_a : regexp :=
  mk_regexp (λ s, if decide (s = "a") then 0 else -1).

(** The worked example: four events of file ["a"], the first at
    time [t0]. *)
Definition worked_example (t0 : Z) (heap : nat → Z) : list line_event :=
  [mk_event "a" 1 t0 heap; mk_event "a" 2 (t0 + 1000) heap;
   mk_event "a" 1 (t0 + 2500) heap; mk_event "a" 3 (t0 + 3000) heap].

(** The class of the exception a call raised, if it raised one. *)
Definition raised_class (o : outcome) : option string :=
  match o with
  | Raised cls _ _ => Some cls
  | _ => None
  end.

(** The file selector rejects [f] in state [st]: in single file mode
    another name is configured; in pattern mode the registry holds the
    sentinel for [f], or holds nothing and the pattern does not match. *)
Definition untracked (st : rblineprof_t) (f : string) : Prop :=
  match source_filename st with
  | Some name => name ≠ f
  | None =>
      match files st !! f with
      | Some Qnil => True
      | Some (Ptr _) => False
      | None => ∃ re, source_regex st = Some re ∧ rb_reg_search re f < 0
      end
  end.

(** The three events of the two-file example, the first at time [t0]. *)
Definition two_files (t0 : Z) (heap : nat → Z) : list line_event :=
  [mk_event "a" 1 t0 heap; mk_event "b" 9 (t0 + 500) heap;
   mk_event "a" 2 (t0 + 900) heap].

(** Every structure in the registry carries the name it is stored
    under. *)
Definition named (tbl : gmap string record) : Prop :=
  ∀ k sf, tbl !! k = Some (Ptr sf) → filename sf = Some k.

(** The counters of a file, added up. *)
Definition total (l : list Z) : Z := foldr Z.add 0 l.


(** The array and its recorded size agree. *)
Definition sized (sf : sourcefile_t) : Prop :=
  match lines sf with
  | None => nlines sf = 0%nat
  | Some l => length l = nlines sf
  end.


(** * Properties *)

(** The counters of a structure; none while [lines] is NULL. *)
Definition counters (sf : sourcefile_t) : list Z := default [] (lines sf).

(** The size of the array at the store of line 99, for an event at
    [line]: lines 87-96 leave it alone when it has room for [line] and
    make it [line + 100] otherwise. *)
Definition capacity_at_store (sf : sourcefile_t) (line : nat) : nat :=
  if decide (nlines sf ≤ line)%nat then (line + 100)%nat else nlines sf.

(** The array exists, the last line is one of its indices and an event
    has been seen. *)
Definition inside (sf : sourcefile_t) : Prop :=
  sized sf ∧ lines sf ≠ None ∧ (last_line sf < nlines sf)%nat ∧ last_time sf ≠ 0.

(** A registry without the sentinel. *)
Definition matched_only (tbl : gmap string record) : Prop :=
  ∀ k, tbl !! k ≠ Some Qnil.

(** Two states select files the same way and hold the same for the
    file [f]: the same registry entry and, when [f] is the configured
    file, the same single file structure. *)
Definition agree_on (f : string) (st1 st2 : rblineprof_t) : Prop :=
  source_filename st1 = source_filename st2 ∧
  source_regex st1 = source_regex st2 ∧
  files st1 !! f = files st2 !! f ∧
  (source_filename st1 = Some f → file st1 = file st2).

(** Every structure in the registry has an array that agrees with its
    size. *)
Definition entries_sized (tbl : gmap string record) : Prop :=
  ∀ k sf, tbl !! k = Some (Ptr sf) → sized sf.

(** [wrapped sf t1]: the file saw its first event at [t1]; its counters
    are 64-bit values that add up, modulo 2^64, to the time from [t1] to
    the last event, and once the array exists the last line is inside. *)
Definition wrapped (sf : sourcefile_t) (t1 : Z) : Prop :=
  last_time sf ≠ 0 ∧
  sized sf ∧
  Forall (λ c, 0 ≤ c < UINT64_MODULUS) (counters sf) ∧
  (∃ k, total (counters sf) = last_time sf - t1 + k * UINT64_MODULUS) ∧
  (lines sf ≠ None → (last_line sf < nlines sf)%nat).



(** Reduce the field accesses of a state written out in full, and
    nothing else. *)
Ltac project_fields :=
  unfold set_file, set_files, set_enabled, set_filename, set_lines, set_last;
  cbn [file files enabled source_filename source_regex
       filename lines nlines last_time last_line
       nd_file nd_line ev_now ev_heap].

(** Open a successful monadic step of the hook. *)
Ltac open_bind :=
  repeat match goal with
  | H : _ ≫= _ = Some _ |- _ =>
      apply bind_Some in H as (? & ? & ?); simplify_eq/=
  end.

(** ** Machine integers *)

Lemma u64_small z : 0 ≤ z < UINT64_MODULUS → u64 z = z.
Proof. intros. unfold u64. by apply Z.mod_small. Qed.

Lemma u64_range z : 0 ≤ u64 z < UINT64_MODULUS.
Proof. unfold u64, UINT64_MODULUS. apply Z.mod_pos_bound. lia. Qed.

(** ** The allocator *)

Lemma length_calloc_lines n : length (calloc_lines n) = n.
Proof. apply length_replicate. Qed.

Lemma lookup_calloc_lines n i : (i < n)%nat → calloc_lines n !! i = Some 0.
Proof. intros. by apply lookup_replicate_2. Qed.

Lemma total_calloc_lines n : total (calloc_lines n) = 0.
Proof.
  induction n as [|n IH]; [done|].
  unfold calloc_lines, total in *. simpl. by rewrite IH.
Qed.

Lemma length_realloc_lines old n heap :
  (length old ≤ n)%nat → length (realloc_lines old n heap) = n.
Proof.
  intros Hn. unfold realloc_lines.
  rewrite length_app, length_take, length_fmap, length_seq. lia.
Qed.

(** [realloc] keeps what the old block held. *)
Lemma realloc_lines_old old n heap i :
  (i < length old)%nat → (length old ≤ n)%nat →
  realloc_lines old n heap !! i = old !! i.
Proof.
  intros Hi Hn. unfold realloc_lines.
  rewrite take_ge by lia. by rewrite lookup_app_l.
Qed.

(** The appended slots hold whatever the memory held. *)
Lemma realloc_lines_new old n heap i :
  (length old ≤ i < n)%nat →
  realloc_lines old n heap !! i = Some (heap i).
Proof.
  intros [Hlo Hhi]. unfold realloc_lines.
  rewrite take_ge by lia. rewrite lookup_app_r by lia.
  rewrite list_lookup_fmap, lookup_seq_lt by lia.
  simpl. f_equal. f_equal. lia.
Qed.

(** ** The timing engine *)

Lemma total_insert (l : list Z) i old v :
  l !! i = Some old → total (<[i := v]> l) = total l - old + v.
Proof.
  revert i. induction l as [|x l IH]; intros [|i] Hi; simplify_eq/=.
  - unfold total. simpl. lia.
  - unfold total in *. simpl. rewrite (IH _ Hi). lia.
Qed.

Lemma record_sample_first sf line now heap :
  last_time sf = 0 → record_sample sf line now heap = Some (set_last now line sf).
Proof. intros H. unfold record_sample. by rewrite decide_True. Qed.

(** The first store of a file: the array is sized by the line that is
    about to run and written at the line that just ran. *)
Lemma record_sample_allocate sf line now heap :
  last_time sf ≠ 0 → lines sf = None → (last_line sf < line + 100)%nat →
  record_sample sf line now heap =
    Some (mk_sourcefile (filename sf)
            (Some (<[last_line sf := u64 (now - last_time sf)]> (calloc_lines (line + 100))))
            (line + 100) now line).
Proof.
  intros Ht Hl Hlt. unfold record_sample, store_sample, allocate_first, grow_if_necessary.
  rewrite decide_False by done. rewrite Hl. simpl.
  rewrite decide_False by lia. simpl.
  rewrite lookup_calloc_lines by done. simpl.
  rewrite Z.add_0_l. f_equal. unfold set_last, set_lines. simpl. f_equal. f_equal. f_equal.
  apply u64_small, u64_range.
Qed.

Lemma record_sample_allocate_outside sf line now heap :
  last_time sf ≠ 0 → lines sf = None → (line + 100 ≤ last_line sf)%nat →
  record_sample sf line now heap = None.
Proof.
  intros Ht Hl Hlt. unfold record_sample, store_sample, allocate_first, grow_if_necessary.
  rewrite decide_False by done. rewrite Hl. simpl.
  rewrite decide_False by lia. simpl.
  unfold calloc_lines. rewrite (proj1 (lookup_replicate_None _ _ _)) by lia. done.
Qed.

(** A later store with room for the current line: no allocation. *)
Lemma record_sample_store sf line now heap l old :
  last_time sf ≠ 0 → lines sf = Some l → (line < nlines sf)%nat →
  l !! last_line sf = Some old →
  record_sample sf line now heap =
    Some (mk_sourcefile (filename sf)
            (Some (<[last_line sf := u64 (old + u64 (now - last_time sf))]> l))
            (nlines sf) now line).
Proof.
  intros Ht Hl Hlt Hold. unfold record_sample, store_sample, allocate_first, grow_if_necessary.
  rewrite decide_False by done. rewrite Hl. simpl.
  rewrite decide_False by lia. simpl. rewrite Hl. simpl. rewrite Hold. done.
Qed.


(** ** Accounting of one file *)

Lemma total_cons x l : total (x :: l) = x + total l.
Proof. done. Qed.

Lemma total_app l k : total (l ++ k) = total l + total k.
Proof.
  induction l as [|x l IH]; [done|].
  rewrite <- app_comm_cons, !total_cons, IH. lia.
Qed.






(** ** The hook in single file mode *)

Lemma profiler_hook_other_file st name e :
  source_filename st = Some name → nd_file e ≠ name →
  profiler_hook st e = ([], Some st).
Proof.
  intros Hname Hne. unfold profiler_hook. rewrite Hname.
  by rewrite decide_False by congruence.
Qed.

Lemma profiler_hook_same_file st name e :
  source_filename st = Some name → nd_file e = name →
  profiler_hook st e =
    ([], sf ← record_sample (set_filename (Some name) (file st))
                 (nd_line e) (ev_now e) (ev_heap e);
         Some (set_file sf st)).
Proof.
  intros Hname He. unfold profiler_hook. rewrite Hname, He.
  by rewrite decide_True.
Qed.

Lemma run_block_cons_ok st e blk log st1 :
  profiler_hook st e = (log, Some st1) →
  run_block st (e :: blk) = (log ++ (run_block st1 blk).1, (run_block st1 blk).2).
Proof. intros H. simpl. rewrite H. by destruct (run_block st1 blk). Qed.

Lemma run_block_skips st name blk :
  source_filename st = Some name →
  filter (λ e, nd_file e = name) blk = [] →
  run_block st blk = ([], Some st).
Proof.
  intros Hname. induction blk as [|e blk IH]; [done|]. intros Hf.
  destruct (decide (nd_file e = name)) as [He|He].
  - by rewrite filter_cons_True in Hf.
  - rewrite filter_cons_False in Hf by done.
    erewrite run_block_cons_ok by (by eapply profiler_hook_other_file).
    by rewrite IH.
Qed.



(** ** Modes and the hook *)

Lemma profiler_hook_mode st e log st' :
  profiler_hook st e = (log, Some st') →
  source_filename st' = source_filename st ∧
  source_regex st' = source_regex st ∧
  enabled st' = enabled st.
Proof.
  unfold profiler_hook. intros H.
  repeat (case_match; simplify_eq/=); try done; by open_bind.
Qed.

Lemma run_block_mode blk : ∀ st log st',
  run_block st blk = (log, Some st') →
  source_filename st' = source_filename st ∧
  source_regex st' = source_regex st ∧
  enabled st' = enabled st.
Proof.
  induction blk as [|e blk IH]; intros st log st' H; simpl in H.
  { by simplify_eq. }
  destruct (profiler_hook st e) as [log1 [st1|]] eqn:Hh; [|done].
  destruct (run_block st1 blk) as [log2 r] eqn:Hr. simplify_eq.
  destruct (IH _ _ _ Hr) as (-> & -> & ->).
  by eapply profiler_hook_mode.
Qed.

(** ** Cleanup and the report *)

Lemma st_foreach_empty {A} (func : string → record → A → option (st_retval * A)) arg :
  st_foreach ∅ func arg = Some (∅, arg).
Proof. unfold st_foreach. by rewrite map_to_list_empty. Qed.

Lemma cleanup_files_entries stale entries : ∀ tbl,
  ∃ tbl', st_foreach_entries (cleanup_files stale) entries tbl () = Some (tbl', ()).
Proof.
  induction entries as [|[key rec] entries IH]; intros tbl; simpl; [by eexists|].
  destruct rec as [|sf]; simpl; [destruct stale|]; eauto.
Qed.

Lemma cleanup_Some stale st :
  ∃ tbl', st_foreach (files st) (cleanup_files stale) () = Some (tbl', ()) ∧
          cleanup stale st = Some (set_file (free_lines (file st)) (set_files tbl' st)).
Proof.
  destruct (cleanup_files_entries stale (map_to_list (files st)) (files st)) as [tbl' H].
  exists tbl'. split; [done|]. unfold cleanup, st_foreach. by rewrite H.
Qed.

Lemma sized_free_lines sf : sized sf → lines (free_lines sf) = None ∧ nlines (free_lines sf) = 0%nat.
Proof. unfold sized, free_lines. by destruct (lines sf) eqn:H; simpl; rewrite ?H. Qed.

Lemma line_array_sized sf : sized sf → line_array sf = Some (default [] (lines sf)).
Proof.
  unfold sized, line_array. destruct (lines sf) as [l|]; simpl; intros H.
  - rewrite <- H. apply mapM_Some_2, Forall2_same_length_lookup_2.
    { by rewrite length_seq. }
    intros i j y Hj Hy. apply lookup_seq in Hj as [-> _]. done.
  - by rewrite H.
Qed.

(** ** A session in single file mode *)

Lemma lineprof_string stale st name body :
  enabled st = false →
  ∃ tbl,
    lineprof stale st (VString name) (Some body) =
      match run_block (mk_rblineprof true (Some name) (free_lines (file st))
                         (source_regex st) tbl) body with
      | (_, None) => Crashed
      | (_, Some st3) =>
          match line_array (file st3) with
          | None => Crashed
          | Some ary => Returned {[ name := ary ]} (set_enabled false st3)
          end
      end.
Proof.
  intros Hen. unfold lineprof. rewrite Hen. simpl.
  destruct (cleanup_Some stale
              (mk_rblineprof (enabled st) (Some name) (file st) (source_regex st) (files st)))
    as (tbl & _ & ->).
  exists tbl. unfold set_enabled, set_file, set_files. simpl.
  destruct (run_block _ body) as [log [st3|]] eqn:Hrun; [|done].
  apply run_block_mode in Hrun as (Hname & _ & _). simpl in Hname.
  unfold report. simpl. rewrite Hname.
  by destruct (line_array (file st3)).
Qed.


(** ** The registry remembers *)

(** A call searches at most the file of its event, and only a file the
    table does not know. *)
Lemma profiler_hook_log st e log r :
  profiler_hook st e = (log, r) →
  log = [] ∨ (log = [nd_file e] ∧ files st !! nd_file e = None).
Proof.
  unfold profiler_hook. intros H.
  repeat (case_match; simplify_eq/=); auto.
Qed.

(** A file that was searched is in the table afterwards. *)
Lemma profiler_hook_memo st e log st' :
  profiler_hook st e = (log, Some st') → log ≠ [] →
  is_Some (files st' !! nd_file e).
Proof.
  unfold profiler_hook. intros H Hlog.
  repeat (case_match; simplify_eq/=); try done; open_bind;
    rewrite lookup_insert_eq; by eexists.
Qed.

(** No call removes an entry. *)
Lemma profiler_hook_keeps st e log st' f :
  profiler_hook st e = (log, Some st') →
  is_Some (files st !! f) → is_Some (files st' !! f).
Proof.
  unfold profiler_hook. intros H Hf.
  repeat (case_match; simplify_eq/=); try done; open_bind; try done;
    (destruct (decide (nd_file e = f)) as [->|];
     [rewrite lookup_insert_eq; by eexists|by rewrite lookup_insert_ne]).
Qed.

Lemma run_block_log_known blk : ∀ st f,
  is_Some (files st !! f) → f ∉ (run_block st blk).1.
Proof.
  induction blk as [|e blk IH]; intros st f Hf; simpl.
  { apply not_elem_of_nil. }
  destruct (profiler_hook st e) as [log r] eqn:Hh.
  assert (f ∉ log) as Hlog.
  { destruct (profiler_hook_log _ _ _ _ Hh) as [->|[-> Hnone]].
    - apply not_elem_of_nil.
    - intros ->%list_elem_of_singleton. rewrite Hnone in Hf. by destruct Hf. }
  destruct r as [st1|]; [|done].
  specialize (IH st1 f (profiler_hook_keeps _ _ _ _ _ Hh Hf)).
  destruct (run_block st1 blk) as [log' r']. simpl in *.
  rewrite elem_of_app. tauto.
Qed.

Lemma run_block_log_NoDup blk : ∀ st, NoDup (run_block st blk).1.
Proof.
  induction blk as [|e blk IH]; intros st; simpl.
  { apply NoDup_nil_2. }
  destruct (profiler_hook st e) as [log r] eqn:Hh.
  destruct (profiler_hook_log _ _ _ _ Hh) as [->|[-> Hnone]].
  - destruct r as [st1|]; [|apply NoDup_nil_2].
    specialize (IH st1). by destruct (run_block st1 blk).
  - destruct r as [st1|]; [|apply NoDup_singleton].
    pose proof (run_block_log_known blk st1 (nd_file e)
                  (profiler_hook_memo _ _ _ _ Hh ltac:(done))) as Hnot.
    specialize (IH st1). destruct (run_block st1 blk) as [log' r']. simpl in *.
    by apply NoDup_cons.
Qed.

(** ** Events of untracked files *)

Lemma profiler_hook_untracked st e :
  untracked st (nd_file e) →
  ∃ st', (profiler_hook st e).2 = Some st' ∧
         file st' = file st ∧
         (∀ k sf, files st' !! k = Some (Ptr sf) ↔ files st !! k = Some (Ptr sf)) ∧
         (∀ k, k ≠ nd_file e → files st' !! k = files st !! k).
Proof.
  unfold untracked, profiler_hook. intros Hun.
  destruct (source_filename st) as [name|].
  { rewrite decide_False by done. by exists st. }
  destruct (files st !! nd_file e) as [[|sf]|] eqn:Hlook; [by exists st|done|].
  destruct Hun as (re & -> & Hre). rewrite decide_False by lia.
  eexists. split; [done|]. simpl. split; [done|]. split.
  - intros k sf. destruct (decide (nd_file e = k)) as [<-|Hk].
    + rewrite lookup_insert_eq, Hlook. naive_solver.
    + by rewrite lookup_insert_ne.
  - intros k Hk. by rewrite lookup_insert_ne.
Qed.

(** ** What the cleanup leaves in the registry *)

(** Entries the iteration does not visit stay. *)
Lemma cleanup_entries_frame stale entries : ∀ tbl tbl' k,
  st_foreach_entries (cleanup_files stale) entries tbl () = Some (tbl', ()) →
  k ∉ entries.*1 → tbl' !! k = tbl !! k.
Proof.
  induction entries as [|[key rec] entries IH]; intros tbl tbl' k H Hk; simpl in *.
  { by simplify_eq. }
  apply not_elem_of_cons in Hk as [Hne Hk].
  destruct rec as [|sf]; simpl in H; [destruct stale|]; simplify_eq;
    try (by eapply IH); try done;
    by rewrite (IH _ _ _ H Hk), lookup_delete_ne.
Qed.

(** The iteration adds nothing. *)
Lemma cleanup_entries_no_new stale entries : ∀ tbl tbl' k,
  st_foreach_entries (cleanup_files stale) entries tbl () = Some (tbl', ()) →
  tbl !! k = None → tbl' !! k = None.
Proof.
  induction entries as [|[key rec] entries IH]; intros tbl tbl' k H Hk; simpl in *.
  { by simplify_eq. }
  destruct rec as [|sf]; simpl in H; [destruct stale|]; simplify_eq;
    try (by eapply IH); try done;
    (eapply IH; [done|]; by apply lookup_delete_None; right).
Qed.

(** If no sentinel is left, every visited entry is gone. *)
Lemma cleanup_entries_gone stale entries : ∀ tbl tbl',
  st_foreach_entries (cleanup_files stale) entries tbl () = Some (tbl', ()) →
  NoDup entries.*1 →
  (∀ k r, (k, r) ∈ entries → tbl !! k = Some r) →
  (∀ k, tbl' !! k ≠ Some Qnil) →
  ∀ k, k ∈ entries.*1 → tbl' !! k = None.
Proof.
  induction entries as [|[key rec] entries IH]; intros tbl tbl' H Hnd Hin Hq k Hk.
  { by apply elem_of_nil in Hk. }
  rewrite fmap_cons in Hnd, Hk. simpl in Hnd, Hk.
  apply NoDup_cons in Hnd as [Hfresh Hnd].
  assert (∀ tbl1,
            st_foreach_entries (cleanup_files stale) entries (delete key tbl) ()
              = Some (tbl1, ()) →
            (∀ k, tbl1 !! k ≠ Some Qnil) → tbl1 !! k = None) as Hdel.
  { intros tbl1 H1 Hq1. apply elem_of_cons in Hk as [->|Hk].
    - eapply cleanup_entries_no_new; [done|]. apply lookup_delete_eq.
    - eapply IH; try done. intros k' r' Hin'.
      rewrite lookup_delete_ne; [apply Hin; by right|].
      intros ->. apply Hfresh. apply list_elem_of_fmap. by exists (k', r'). }
  assert (tbl !! key = Some rec) as Hkey by (apply Hin; by left).
  assert (∀ tbl1,
            st_foreach_entries (cleanup_files stale) entries tbl () = Some (tbl1, ()) →
            rec = Qnil → tbl1 !! key = Some Qnil) as Hstay.
  { intros tbl1 H1 ->. by rewrite (cleanup_entries_frame _ _ _ _ _ H1 Hfresh). }
  simpl in H. destruct rec as [|sf]; simpl in H; [destruct stale|]; simplify_eq;
    try (by eapply Hdel);
    try (by exfalso; eapply Hq, Hstay);
    by exfalso; eapply Hq.
Qed.

Lemma cleanup_without_sentinel_is_empty stale tbl tbl' :
  st_foreach tbl (cleanup_files stale) () = Some (tbl', ()) →
  (∀ k, tbl' !! k ≠ Some Qnil) →
  tbl' = ∅.
Proof.
  unfold st_foreach. intros H Hq. apply map_empty. intros k.
  destruct (tbl !! k) as [r|] eqn:Hk.
  - eapply cleanup_entries_gone; try done.
    + apply NoDup_fst_map_to_list.
    + intros k' r'. apply elem_of_map_to_list.
    + apply list_elem_of_fmap. exists (k, r). split; [done|].
      by apply elem_of_map_to_list.
  - by eapply cleanup_entries_no_new.
Qed.

(** ** What the hook does to the registry *)

Lemma record_sample_filename sf line now heap sf' :
  record_sample sf line now heap = Some sf' → filename sf' = filename sf.
Proof.
  unfold record_sample, store_sample, allocate_first, grow_if_necessary.
  intros H. open_bind. repeat (case_match; simplify_eq/=); open_bind; done.
Qed.

(** The table after a call that went well. *)
Lemma profiler_hook_files st e log st' :
  profiler_hook st e = (log, Some st') →
  files st' = files st ∨
  (∃ sf sf', files st !! nd_file e = Some (Ptr sf) ∧
             record_sample sf (nd_line e) (ev_now e) (ev_heap e) = Some sf' ∧
             files st' = <[nd_file e := Ptr sf']> (files st)) ∨
  (∃ sf', files st !! nd_file e = None ∧
          record_sample (set_filename (Some (nd_file e)) zeroed_sourcefile)
            (nd_line e) (ev_now e) (ev_heap e) = Some sf' ∧
          files st' = <[nd_file e := Ptr sf']> (files st)) ∨
  (files st !! nd_file e = None ∧ files st' = <[nd_file e := Qnil]> (files st)).
Proof.
  unfold profiler_hook. intros H.
  destruct (source_filename st) as [name|].
  { case_decide; simplify_eq/=; [open_bind|]; by left. }
  destruct (files st !! nd_file e) as [[|sf]|] eqn:Hlook; simplify_eq/=.
  - by left.
  - open_bind. right. left. by eexists _, _.
  - destruct (source_regex st) as [re|]; [|done].
    case_decide; simplify_eq/=.
    + open_bind. right. right. left. by eexists.
    + right. right. right. done.
Qed.

(** The sentinel of a file stays for the rest of the block. *)
Lemma profiler_hook_sentinel st e log st' k :
  profiler_hook st e = (log, Some st') →
  files st !! k = Some Qnil → files st' !! k = Some Qnil.
Proof.
  intros H Hk.
  destruct (profiler_hook_files _ _ _ _ H)
    as [->|[(sf & sf' & Hl & _ & ->)|[(sf' & Hl & _ & ->)|[Hl ->]]]]; [done|..];
    (destruct (decide (nd_file e = k)) as [<-|Hne];
     [congruence|by rewrite lookup_insert_ne]).
Qed.

Lemma profiler_hook_named st e log st' :
  profiler_hook st e = (log, Some st') → named (files st) → named (files st').
Proof.
  intros H Hnamed k sf1.
  destruct (profiler_hook_files _ _ _ _ H)
    as [->|[(sf & sf' & Hl & Hrs & ->)|[(sf' & Hl & Hrs & ->)|[Hl ->]]]];
    [by apply Hnamed|..];
    (destruct (decide (nd_file e = k)) as [<-|Hne];
     [rewrite lookup_insert_eq|rewrite lookup_insert_ne by done; by apply Hnamed]);
    intros ?; simplify_eq.
  - rewrite (record_sample_filename _ _ _ _ _ Hrs). by apply Hnamed.
  - by rewrite (record_sample_filename _ _ _ _ _ Hrs).
Qed.

Lemma profiler_hook_keys st e log st' k :
  profiler_hook st e = (log, Some st') →
  is_Some (files st' !! k) → is_Some (files st !! k) ∨ k = nd_file e.
Proof.
  intros H.
  destruct (profiler_hook_files _ _ _ _ H)
    as [->|[(sf & sf' & Hl & _ & ->)|[(sf' & Hl & _ & ->)|[Hl ->]]]]; [by left|..];
    (destruct (decide (nd_file e = k)) as [<-|Hne];
     [by right|rewrite lookup_insert_ne by done; by left]).
Qed.

Lemma run_block_registry blk : ∀ st log st',
  run_block st blk = (log, Some st') →
  (∀ k, files st !! k = Some Qnil → files st' !! k = Some Qnil) ∧
  (named (files st) → named (files st')) ∧
  (∀ k, is_Some (files st' !! k) → is_Some (files st !! k) ∨ k ∈ nd_file <$> blk).
Proof.
  induction blk as [|e blk IH]; intros st log st' H; simpl in H.
  { simplify_eq. auto. }
  destruct (profiler_hook st e) as [log1 [st1|]] eqn:Hh; [|done].
  destruct (run_block st1 blk) as [log2 r] eqn:Hr. simplify_eq.
  destruct (IH _ _ _ Hr) as (Hq & Hn & Hk). repeat split.
  - intros k Hkq. by eapply Hq, profiler_hook_sentinel.
  - intros Hnamed. by eapply Hn, profiler_hook_named.
  - intros k Hsome. rewrite fmap_cons, elem_of_cons.
    destruct (Hk k Hsome) as [H1|H1]; [|auto].
    destruct (profiler_hook_keys _ _ _ _ _ Hh H1); auto.
Qed.

(** ** The report in pattern mode *)

Lemma summarize_entries entries : ∀ tbl ret tbl' ret',
  st_foreach_entries summarize_files entries tbl ret = Some (tbl', ret') →
  (∀ k, (k, Qnil) ∉ entries) ∧
  (∀ f, is_Some (ret' !! f) →
        is_Some (ret !! f) ∨ ∃ k sf, (k, Ptr sf) ∈ entries ∧ filename sf = Some f).
Proof.
  induction entries as [|[key rec] entries IH]; intros tbl ret tbl' ret' H; simpl in H.
  { simplify_eq. split; [intros k; apply not_elem_of_nil|auto]. }
  destruct rec as [|sf]; simpl in H; [done|].
  destruct (line_array sf) as [ary|]; simpl in H; [|done].
  destruct (filename sf) as [name|] eqn:Hname; simpl in H; [|done].
  destruct (IH _ _ _ _ H) as [Hq Hkeys]. split.
  - intros k [?|?]%elem_of_cons; [done|]. by eapply Hq.
  - intros f Hf. destruct (Hkeys f Hf) as [Hret|(k & sf' & Hin & Hfn)].
    + destruct (decide (name = f)) as [->|Hne].
      * right. exists key, sf. split; [by left|done].
      * left. by rewrite lookup_insert_ne in Hret.
    + right. exists k, sf'. split; [by right|done].
Qed.

(** ** A session in pattern mode *)

Lemma lineprof_regexp stale st re body :
  enabled st = false →
  ∃ tbl,
    st_foreach (files st) (cleanup_files stale) () = Some (tbl, ()) ∧
    lineprof stale st (VRegexp re) (Some body) =
      match run_block (mk_rblineprof true None (free_lines (file st)) (Some re) tbl)
              body with
      | (_, None) => Crashed
      | (_, Some st3) =>
          match st_foreach (files st3) summarize_files ∅ with
          | None => Crashed
          | Some (_, ret) => Returned ret (set_enabled false st3)
          end
      end.
Proof.
  intros Hen. unfold lineprof. rewrite Hen. simpl.
  destruct (cleanup_Some stale
              (mk_rblineprof (enabled st) None (file st) (Some re) (files st)))
    as (tbl & Htbl & ->).
  exists tbl. split; [done|]. unfold set_enabled, set_file, set_files. simpl.
  destruct (run_block _ body) as [log [st3|]] eqn:Hrun; [|done].
  apply run_block_mode in Hrun as (Hname & _ & _). simpl in Hname.
  unfold report. simpl. rewrite Hname.
  by destruct (st_foreach (files st3) summarize_files ∅) as [[??]|].
Qed.

Lemma filter_none_of_file name (blk : list line_event) :
  (∀ e, e ∈ blk → nd_file e ≠ name) →
  filter (λ e, nd_file e = name) blk = [].
Proof.
  induction blk as [|e blk IH]; intros H; [done|].
  rewrite filter_cons_False by (apply H; by left).
  apply IH. intros e' He'. apply H. by right.
Qed.

(** ** The array and its recorded size

    [sized] holds at start-up and every call of [lineprof] that comes
    back, by return or by exception, keeps it for the single file
    structure. *)

Lemma sized_Init : sized (file Init_rblineprof).
Proof. done. Qed.

Lemma record_sample_sized sf line now heap sf' :
  sized sf → record_sample sf line now heap = Some sf' → sized sf'.
Proof.
  unfold record_sample, store_sample, allocate_first, grow_if_necessary, sized.
  intros Hsz H. open_bind.
  destruct (decide (last_time sf = 0)); simplify_eq/=; [done|].
  open_bind. rewrite length_insert.
  destruct (lines sf) as [l|] eqn:Hl; simpl in *.
  - rewrite Hl in *. case_decide; simplify_eq/=; [|done].
    apply length_realloc_lines. lia.
  - rewrite decide_False in * by lia. simplify_eq/=. apply length_calloc_lines.
Qed.

Lemma profiler_hook_sized st e log st' :
  sized (file st) → profiler_hook st e = (log, Some st') → sized (file st').
Proof.
  unfold profiler_hook. intros Hsz H.
  repeat (case_match; simplify_eq/=); try done; open_bind; try done.
  eapply record_sample_sized; [|done]. done.
Qed.

Lemma run_block_sized blk : ∀ st log st',
  sized (file st) → run_block st blk = (log, Some st') → sized (file st').
Proof.
  induction blk as [|e blk IH]; intros st log st' Hsz H; simpl in H.
  { by simplify_eq. }
  destruct (profiler_hook st e) as [log1 [st1|]] eqn:Hh; [|done].
  destruct (run_block st1 blk) as [log2 r] eqn:Hr. simplify_eq.
  eapply IH; [|done]. by eapply profiler_hook_sized.
Qed.

Lemma sized_free_lines_sized sf : sized sf → sized (free_lines sf).
Proof. intros H. destruct (sized_free_lines _ H) as [H1 H2]. unfold sized. by rewrite H1. Qed.

Lemma lineprof_sized stale st filename_ blk :
  sized (file st) →
  match lineprof stale st filename_ blk with
  | Returned _ st' | Raised _ _ st' => sized (file st')
  | Crashed => True
  end.
Proof.
  intros Hsz.
  destruct blk as [body|]; [|done].
  destruct (enabled st) eqn:Hen; [by unfold lineprof; rewrite Hen|].
  destruct filename_ as [name|re|].
  - destruct (lineprof_string stale st name body Hen) as [tbl ->].
    destruct (run_block _ body) as [log [st3|]] eqn:Hrun; [|done].
    apply run_block_sized in Hrun; [|by apply sized_free_lines_sized].
    by destruct (line_array _).
  - destruct (lineprof_regexp stale st re body Hen) as (tbl & _ & ->).
    destruct (run_block _ body) as [log [st3|]] eqn:Hrun; [|done].
    apply run_block_sized in Hrun; [|by apply sized_free_lines_sized].
    by destruct (st_foreach _ _ _) as [[??]|].
  - by unfold lineprof; rewrite Hen.
Qed.

(** The iteration keeps or drops entries; it changes none. *)
Lemma cleanup_entries_sub stale entries : ∀ tbl tbl' k r,
  st_foreach_entries (cleanup_files stale) entries tbl () = Some (tbl', ()) →
  tbl' !! k = Some r → tbl !! k = Some r.
Proof.
  induction entries as [|[key rec] entries IH]; intros tbl tbl' k r H Hk; simpl in *.
  { by simplify_eq. }
  destruct rec as [|sf]; simpl in H; [destruct stale|]; simplify_eq;
    try (by eapply IH); try done;
    (specialize (IH _ _ _ _ H Hk); by apply lookup_delete_Some in IH as [_ ?]).
Qed.

Lemma cleanup_matched_only stale tbl :
  matched_only tbl → st_foreach tbl (cleanup_files stale) () = Some (∅, ()).
Proof.
  intros Hm.
  destruct (cleanup_files_entries stale (map_to_list tbl) tbl) as [tbl' H].
  assert (tbl' = ∅) as ->; [|done].
  eapply cleanup_without_sentinel_is_empty; [done|].
  intros k Hk. apply (Hm k). by eapply cleanup_entries_sub.
Qed.

(** ** A matched file in pattern mode *)






(** * The claims *)

(** C1 (stores stay below the capacity): the code breaks it.  The array
    is sized by the line about to run, the store goes to the line that
    just ran.  A file whose first event is at line 500 and whose second
    is at line 1 gets 101 counters; the store of the second event aims
    at index 500. *)
Theorem store_outside_array_on_backward_jump :
  ∀ stale,
    let st0 := mk_rblineprof true (Some "a") zeroed_sourcefile None ∅ in
    ∃ st1,
      profiler_hook st0 (ev "a" 500 1) = ([], Some st1) ∧
      lines (file st1) = None ∧ last_line (file st1) = 500%nat ∧
      nlines (grow_if_necessary 1 no_heap (allocate_first 1 (file st1))) = 101%nat ∧
      profiler_hook st1 (ev "a" 1 2) = ([], None) ∧
      lineprof stale Init_rblineprof (VString "a") (Some [ev "a" 500 1; ev "a" 1 2])
        = Crashed.
Proof.
  intros stale st0. eexists. split; [reflexivity|].
  repeat split; destruct stale; vm_compute; reflexivity.
Qed.

(** C2 (worked example), as the code has it: when the first of the four
    events is stamped with a time [t0] other than 0, file ["a"] reports
    1500 at line 1, 1500 at line 2 and 0 at line 3. *)
Theorem worked_example_from_nonzero_start stale t0 heap :
  0 < t0 → t0 + 3000 < UINT64_MODULUS →
  ∃ ary st',
    lineprof stale Init_rblineprof (VString "a") (Some (worked_example t0 heap))
      = Returned {[ "a" := ary ]} st' ∧
    ary !! 1%nat = Some 1500 ∧ ary !! 2%nat = Some 1500 ∧ ary !! 3%nat = Some 0.
Proof.
  intros Hpos Hmax.
  destruct (lineprof_string stale Init_rblineprof "a" (worked_example t0 heap))
    as [tbl ->]; [done|].
  assert (record_sample (mk_sourcefile (Some "a") None 0 t0 1) 2 (t0 + 1000) heap
          = Some (mk_sourcefile (Some "a") (Some (<[1%nat := 1000]> (calloc_lines 102)))
                    102 (t0 + 1000) 2)) as H2.
  { rewrite record_sample_allocate by (simpl; first [done|lia]). simpl.
    replace (t0 + 1000 - t0) with 1000 by lia. reflexivity. }
  assert (record_sample (mk_sourcefile (Some "a") (Some (<[1%nat := 1000]> (calloc_lines 102)))
                           102 (t0 + 1000) 2) 1 (t0 + 2500) heap
          = Some (mk_sourcefile (Some "a")
                    (Some (<[2%nat := 1500]> (<[1%nat := 1000]> (calloc_lines 102))))
                    102 (t0 + 2500) 1)) as H3.
  { erewrite (record_sample_store _ _ _ _ _ 0); [|simpl; lia|done|simpl; lia|done].
    simpl. replace (t0 + 2500 - (t0 + 1000)) with 1500 by lia. reflexivity. }
  assert (record_sample (mk_sourcefile (Some "a")
                           (Some (<[2%nat := 1500]> (<[1%nat := 1000]> (calloc_lines 102))))
                           102 (t0 + 2500) 1) 3 (t0 + 3000) heap
          = Some (mk_sourcefile (Some "a")
                    (Some (<[1%nat := 1500]>
                             (<[2%nat := 1500]> (<[1%nat := 1000]> (calloc_lines 102)))))
                    102 (t0 + 3000) 3)) as H4.
  { erewrite (record_sample_store _ _ _ _ _ 1000); [|simpl; lia|done|simpl; lia|done].
    simpl. replace (t0 + 3000 - (t0 + 2500)) with 500 by lia. reflexivity. }
  unfold worked_example.
  change (free_lines (file Init_rblineprof)) with (mk_sourcefile None None 0 0 0).
  erewrite run_block_cons_ok; last first.
  { erewrite profiler_hook_same_file by done. by rewrite record_sample_first. }
  erewrite run_block_cons_ok; last first.
  { erewrite profiler_hook_same_file by done. project_fields. by rewrite H2. }
  erewrite run_block_cons_ok; last first.
  { erewrite profiler_hook_same_file by done. project_fields. by rewrite H3. }
  erewrite run_block_cons_ok; last first.
  { erewrite profiler_hook_same_file by done. project_fields. by rewrite H4. }
  cbn [run_block fst snd app]. project_fields.
  rewrite line_array_sized by done.
  eexists _, _. split; [done|]. done.
Qed.

(** C2 with the first event at time 1. *)
Lemma worked_example_from_nonzero_start_witness :
  ∃ ary st',
    lineprof ST_CONTINUE Init_rblineprof (VString "a") (Some (worked_example 1 no_heap))
      = Returned {[ "a" := ary ]} st' ∧
    ary !! 1%nat = Some 1500 ∧ ary !! 2%nat = Some 1500 ∧ ary !! 3%nat = Some 0.
Proof.
  apply (worked_example_from_nonzero_start ST_CONTINUE 1 no_heap); reflexivity.
Defined.

(** C2, refuted as stated: with the first event at time 0 the code takes
    the second event for the first one ([last_time] is still 0), the
    interval 0..1000 is billed to nobody, and line 1 reports 500. *)
Lemma worked_example_at_zero :
  ∃ ary st',
    lineprof ST_CONTINUE Init_rblineprof (VString "a") (Some (worked_example 0 no_heap))
      = Returned {[ "a" := ary ]} st' ∧
    ary !! 1%nat = Some 500 ∧ ary !! 1%nat ≠ Some 1500.
Proof. eexists _, _. split; [vm_compute; reflexivity|]. by split. Qed.




(** C4 (growth zero-fills the new slots): the code breaks it.  [realloc]
    does not initialise what it appends and the code does not either.
    With 102 counters in place, an event at line 200 regrows the array to
    300; the old counts are kept, index 150 holds what the memory held
    (here 7). *)
Theorem regrown_slots_are_not_zeroed :
  ∀ stale,
    ∃ ary st',
      lineprof stale Init_rblineprof (VString "a")
        (Some [ev "a" 1 10; ev "a" 2 20; mk_event "a" 200 30 (λ _, 7)])
        = Returned {[ "a" := ary ]} st' ∧
      length ary = 300%nat ∧
      ary !! 1%nat = Some 10 ∧ ary !! 2%nat = Some 10 ∧
      ary !! 150%nat = Some 7.
Proof.
  intros stale. eexists _, _. split; [destruct stale; vm_compute; reflexivity|].
  repeat split.
Qed.

(** C5 (re-entrant call), as the code has it: a call while the profiler
    is enabled raises ArgumentError, the class of every error of
    [lineprof], with the message "profiler is already enabled" when a
    block is given and "block required" when none is; the state is left
    as it was. *)
Theorem reentrant_call_raises_argument_error stale st filename_ blk :
  enabled st = true →
  lineprof stale st filename_ blk
    = Raised "ArgumentError"
        (match blk with
         | Some _ => "profiler is already enabled"
         | None => "block required"
         end) st.
Proof. intros Hen. unfold lineprof. destruct blk; [by rewrite Hen|done]. Qed.

(** C5 on the start-up state with the profiler switched on. *)
Lemma reentrant_call_raises_argument_error_witness :
  lineprof ST_CONTINUE (set_enabled true Init_rblineprof) (VString "a") (Some [ev "a" 1 1])
    = Raised "ArgumentError" "profiler is already enabled"
        (set_enabled true Init_rblineprof).
Proof.
  apply (reentrant_call_raises_argument_error ST_CONTINUE
           (set_enabled true Init_rblineprof) (VString "a") (Some [ev "a" 1 1])).
  reflexivity.
Defined.

(** C5, refuted as stated: the error of a re-entrant call has the class
    of the errors for a missing block and for an unsupported argument. *)
Lemma reentrant_error_class_is_not_distinct :
  raised_class (lineprof ST_CONTINUE (set_enabled true Init_rblineprof)
                  (VString "a") (Some []))
    = Some "ArgumentError" ∧
  raised_class (lineprof ST_CONTINUE Init_rblineprof (VString "a") None)
    = Some "ArgumentError" ∧
  raised_class (lineprof ST_CONTINUE Init_rblineprof VObject (Some []))
    = Some "ArgumentError".
Proof. by repeat split. Qed.

(** C6 (cleanup across sessions): the code breaks it.  The cleanup frees
    the array of the single file structure and leaves its [last_time]
    and [last_line].  After a session on ["a"] that ended at line 5 and
    time 10, a session on ["b"] whose only event is at time 1000 reports
    990 microseconds at line 5 of ["b"]. *)
Theorem second_session_inherits_last_event :
  ∀ stale,
    ∃ st1 ary st2,
      lineprof stale Init_rblineprof (VString "a") (Some [ev "a" 5 10])
        = Returned {[ "a" := [] ]} st1 ∧
      last_time (file st1) = 10 ∧ last_line (file st1) = 5%nat ∧
      lineprof stale st1 (VString "b") (Some [ev "b" 1 1000])
        = Returned {[ "b" := ary ]} st2 ∧
      ary !! 5%nat = Some 990.
Proof.
  intros stale. eexists _, _, _.
  split; [destruct stale; vm_compute; reflexivity|].
  split; [reflexivity|]. split; [reflexivity|].
  split; [destruct stale; vm_compute; reflexivity|].
  reflexivity.
Qed.

(** C7 (untracked files and the report): the code breaks it.  In pattern
    mode a rejected file name is stored under the sentinel, and
    [summarize_files] reads every record as a structure: one event of the
    rejected file ["b"] and the session ends in an invalid load instead
    of a report, with or without events of a matching file. *)
Theorem report_reads_through_the_sentinel :
  ∀ stale,
    ∃ st',
      run_block (mk_rblineprof true None zeroed_sourcefile (Some only_a) ∅)
        [ev "b" 9 500] = (["b"], Some st') ∧
      files st' !! "b" = Some Qnil ∧
      summarize_files "b" Qnil ∅ = None ∧
      lineprof stale Init_rblineprof (VRegexp only_a) (Some [ev "b" 9 500])
        = Crashed ∧
      lineprof stale Init_rblineprof (VRegexp only_a)
        (Some [ev "a" 1 1; ev "b" 9 500; ev "a" 2 900])
        = Crashed.
Proof.
  intros stale. eexists. split; [vm_compute; reflexivity|].
  repeat split; destruct stale; vm_compute; reflexivity.
Qed.

(** C8 (memoization).  Whatever the state at the start of a block and
    whatever the events, no file name is handed to [rb_reg_search] twice,
    and a file name that has an entry in the registry, matched or not, is
    not handed to it at all. *)
Theorem pattern_searched_at_most_once st blk :
  NoDup (run_block st blk).1 ∧
  ∀ f, is_Some (files st !! f) → f ∉ (run_block st blk).1.
Proof.
  split; [apply run_block_log_NoDup|]. intros f. apply run_block_log_known.
Qed.

(** C8 on a block that comes back to its files, with ["c"] already
    rejected. *)
Lemma pattern_searched_at_most_once_witness :
  NoDup (run_block (mk_rblineprof true None zeroed_sourcefile (Some only_a) {[ "c" := Qnil ]})
           [ev "a" 1 1; ev "b" 9 2; ev "a" 2 3; ev "b" 9 4; ev "c" 1 5; ev "b" 1 6]).1 ∧
  "c" ∉ (run_block (mk_rblineprof true None zeroed_sourcefile (Some only_a) {[ "c" := Qnil ]})
           [ev "a" 1 1; ev "b" 9 2; ev "a" 2 3; ev "b" 9 4; ev "c" 1 5; ev "b" 1 6]).1.
Proof.
  destruct (pattern_searched_at_most_once
              (mk_rblineprof true None zeroed_sourcefile (Some only_a) {[ "c" := Qnil ]})
              [ev "a" 1 1; ev "b" 9 2; ev "a" 2 3; ev "b" 9 4; ev "c" 1 5; ev "b" 1 6])
    as [Hnodup Hknown].
  split; [exact Hnodup|]. apply Hknown. vm_compute. eauto.
Defined.

(** C9 (events of untracked files), as the code has it.  An event of a
    file the selector rejects leaves the single file structure and every
    structure of the registry as they are and creates none; in pattern
    mode it at most adds the sentinel under its own name.  For a pattern
    that matches ["a"] and not ["b"], the events (a,1,t0), (b,9,t0+500),
    (a,2,t0+900) with [t0] other than 0 leave 900 at index 1 of the array
    of ["a"] and the sentinel, no structure, for ["b"]. *)
Theorem untracked_event_is_no_op :
  (∀ st e, untracked st (nd_file e) →
     ∃ st', (profiler_hook st e).2 = Some st' ∧
            file st' = file st ∧
            (∀ k sf, files st' !! k = Some (Ptr sf) ↔ files st !! k = Some (Ptr sf)) ∧
            (∀ k, k ≠ nd_file e → files st' !! k = files st !! k)) ∧
  (∀ re t0 heap,
     0 ≤ rb_reg_search re "a" → rb_reg_search re "b" < 0 →
     0 < t0 → t0 + 900 < UINT64_MODULUS →
     ∃ st' l,
       run_block (mk_rblineprof true None zeroed_sourcefile (Some re) ∅)
         (two_files t0 heap) = (["a"; "b"], Some st') ∧
       files st' !! "a" = Some (Ptr (mk_sourcefile (Some "a") (Some l) 102 (t0 + 900) 2)) ∧
       l !! 1%nat = Some 900 ∧
       files st' !! "b" = Some Qnil).
Proof.
  split; [apply profiler_hook_untracked|].
  intros re t0 heap Ha Hb Hpos Hmax. unfold two_files.
  erewrite run_block_cons_ok; last first.
  { unfold profiler_hook. project_fields. rewrite lookup_empty.
    rewrite decide_True by done. by rewrite record_sample_first. }
  erewrite run_block_cons_ok; last first.
  { unfold profiler_hook. project_fields.
    rewrite lookup_insert_ne, lookup_empty by done.
    by rewrite decide_False by lia. }
  erewrite run_block_cons_ok; last first.
  { unfold profiler_hook. project_fields.
    rewrite lookup_insert_ne, lookup_insert_eq by done.
    unfold zeroed_sourcefile. project_fields.
    rewrite record_sample_allocate by (simpl; first [done|lia]).
    project_fields. replace (t0 + 900 - t0) with 900 by lia. done. }
  simpl. eexists _, _. split; [done|]. project_fields.
  rewrite lookup_insert_eq. split; [done|]. split; [done|].
  by rewrite lookup_insert_ne, lookup_insert_eq.
Qed.

(** C9 in single file mode for one event, and in pattern mode for the
    example starting at time 1. *)
Lemma untracked_event_is_no_op_witness :
  (∃ st', (profiler_hook (mk_rblineprof true (Some "a") zeroed_sourcefile None ∅)
             (ev "b" 9 500)).2 = Some st' ∧
          file st' = zeroed_sourcefile) ∧
  (∃ st' l,
     run_block (mk_rblineprof true None zeroed_sourcefile (Some only_a) ∅)
       (two_files 1 no_heap) = (["a"; "b"], Some st') ∧
     files st' !! "a" = Some (Ptr (mk_sourcefile (Some "a") (Some l) 102 (1 + 900) 2)) ∧
     l !! 1%nat = Some 900 ∧
     files st' !! "b" = Some Qnil).
Proof.
  destruct untracked_event_is_no_op as [Hframe Hexample]. split.
  - destruct (Hframe (mk_rblineprof true (Some "a") zeroed_sourcefile None ∅)
                (ev "b" 9 500)) as (st' & Hst' & Hfile & _).
    + vm_compute. congruence.
    + exists st'. split; [exact Hst'|exact Hfile].
  - apply (Hexample only_a 1 no_heap); vm_compute; congruence.
Defined.

(** C9, refuted as stated: with the first event at time 0 the second
    event of ["a"] passes for its first one, nothing is billed, ["a"] has
    no array, and no report says 900 for its line 1. *)
Lemma two_files_example_at_zero :
  (∃ st',
     run_block (mk_rblineprof true None zeroed_sourcefile (Some only_a) ∅)
       (two_files 0 no_heap) = (["a"; "b"], Some st') ∧
     files st' !! "a" = Some (Ptr (mk_sourcefile (Some "a") None 0 900 2))) ∧
  ∀ stale,
    ¬ ∃ rep st' ary,
        lineprof stale Init_rblineprof (VRegexp only_a) (Some (two_files 0 no_heap))
          = Returned rep st' ∧
        rep !! "a" = Some ary ∧ ary !! 1%nat = Some 900.
Proof.
  split.
  - eexists. split; vm_compute; reflexivity.
  - intros stale (rep & st' & ary & H & _).
    destruct stale; vm_compute in H; discriminate.
Qed.

(** C10 (keys of the report by mode).  In single file mode a report that
    is returned has the configured file name as its one key; when no
    event of the block belongs to that file the call returns, and the
    key maps to the empty array.  In pattern mode a file without an event
    in the block is not a key of the report. *)
Theorem report_keys_follow_the_mode :
  (∀ stale st name body rep st',
     enabled st = false →
     lineprof stale st (VString name) (Some body) = Returned rep st' →
     ∃ ary, rep = {[ name := ary ]}) ∧
  (∀ stale st name body,
     enabled st = false → sized (file st) →
     (∀ e, e ∈ body → nd_file e ≠ name) →
     ∃ st', lineprof stale st (VString name) (Some body)
              = Returned {[ name := [] ]} st') ∧
  (∀ stale st re body rep st' f,
     enabled st = false →
     lineprof stale st (VRegexp re) (Some body) = Returned rep st' →
     (∀ e, e ∈ body → nd_file e ≠ f) →
     rep !! f = None).
Proof.
  split; [|split].
  - intros stale st name body rep st' Hen H.
    destruct (lineprof_string stale st name body Hen) as [tbl Heq].
    rewrite Heq in H. destruct (run_block _ body) as [log [st3|]]; [|done].
    destruct (line_array (file st3)) as [ary|]; [|done].
    exists ary. by simplify_eq.
  - intros stale st name body Hen Hsz Hnone.
    destruct (lineprof_string stale st name body Hen) as [tbl ->].
    rewrite (run_block_skips _ name) by (done || by apply filter_none_of_file).
    project_fields. unfold line_array.
    destruct (sized_free_lines _ Hsz) as [_ ->]. by eexists.
  - intros stale st re body rep st' f Hen H Hnone.
    destruct (lineprof_regexp stale st re body Hen) as (tbl & Hclean & Heq).
    rewrite Heq in H. clear Heq.
    destruct (run_block _ body) as [log [st3|]] eqn:Hrun; [|done].
    destruct (st_foreach (files st3) summarize_files ∅) as [[t ret]|] eqn:Hsum; [|done].
    simplify_eq.
    apply summarize_entries in Hsum as [Hq Hkeys].
    apply run_block_registry in Hrun as (Hsent & Hnamed & Hkeysrun).
    simpl in Hsent, Hnamed, Hkeysrun.
    assert (tbl = ∅) as ->.
    { eapply cleanup_without_sentinel_is_empty; [done|].
      intros k Hk. apply (Hq k). apply elem_of_map_to_list. by apply Hsent. }
    apply eq_None_not_Some. intros Hf.
    destruct (Hkeys f Hf) as [Hemp|(k & sf & Hin & Hfn)].
    { rewrite lookup_empty in Hemp. by destruct Hemp. }
    apply elem_of_map_to_list in Hin.
    assert (filename sf = Some k) as Hk by (by apply Hnamed).
    assert (k = f) as -> by congruence.
    destruct (Hkeysrun f ltac:(by eexists)) as [Hemp|Hev].
    { rewrite lookup_empty in Hemp. by destruct Hemp. }
    apply list_elem_of_fmap in Hev as (e & He & Hin'). by eapply Hnone.
Qed.

(** C10 on two first sessions: file ["a"] with an event of ["b"] only,
    and the pattern of ["a"] with two events of ["a"]. *)
Lemma report_keys_follow_the_mode_witness :
  (∃ ary,
     {[ "a" := [] ]} = ({[ "a" := ary ]} : gmap string (list Z))) ∧
  (∃ st', lineprof ST_CONTINUE Init_rblineprof (VString "a") (Some [ev "b" 3 7])
            = Returned {[ "a" := [] ]} st') ∧
  ({[ "a" := <[1%nat := 4]> (calloc_lines 102) ]} : gmap string (list Z)) !! "b" = None.
Proof.
  destruct report_keys_follow_the_mode as (Hsingle & Hempty & Hpattern).
  split; [|split].
  - apply (Hsingle ST_CONTINUE Init_rblineprof "a" [ev "b" 3 7] {[ "a" := [] ]}
             (mk_rblineprof false (Some "a") zeroed_sourcefile None ∅)).
    + reflexivity.
    + vm_compute. reflexivity.
  - apply (Hempty ST_CONTINUE Init_rblineprof "a" [ev "b" 3 7]).
    + reflexivity.
    + reflexivity.
    + intros e [->|[]%elem_of_nil]%elem_of_cons. vm_compute. congruence.
  - apply (Hpattern ST_CONTINUE Init_rblineprof only_a [ev "a" 1 1; ev "a" 2 5]
             {[ "a" := <[1%nat := 4]> (calloc_lines 102) ]}
             (mk_rblineprof false None zeroed_sourcefile (Some only_a)
                {[ "a" := Ptr (mk_sourcefile (Some "a")
                                 (Some (<[1%nat := 4]> (calloc_lines 102))) 102 5 2) ]})
             "b").
    + reflexivity.
    + vm_compute. reflexivity.
    + intros e He. repeat (apply elem_of_cons in He as [->|He]); try (vm_compute; congruence).
      by apply elem_of_nil in He.
Defined.

(** * Further properties of the code *)

(** ** Errors of the entry point *)

(** On a block that runs to its end, [lineprof_block] is [lineprof]. *)
Lemma lineprof_block_completes stale st filename_ blk :
  lineprof_block stale st filename_ ((λ body, (body, Completes)) <$> blk)
    = lineprof stale st filename_ blk.
Proof. by destruct blk. Qed.

(** X1.  [lineprof] itself raises only ArgumentError, before it changes
    anything, and does so exactly when no block is given, the profiler is
    enabled, or the argument is neither a String nor a Regexp.  Every
    other exception comes out of the block: it passes through with its
    class and message, and since nothing undoes line 170 the profiler is
    left enabled in the mode the argument selected.  From then on every
    call is refused with an ArgumentError. *)
Theorem lineprof_raises_before_or_out_of_the_block stale st filename_ blk :
  (blk = None ∨ enabled st = true ∨ filename_ = VObject →
   ∃ msg, lineprof_block stale st filename_ blk = Raised "ArgumentError" msg st) ∧
  (∀ cls msg st',
     lineprof_block stale st filename_ blk = Raised cls msg st' →
     (cls = "ArgumentError" ∧ st' = st ∧
      (blk = None ∨ enabled st = true ∨ filename_ = VObject)) ∨
     (∃ body, blk = Some (body, Unwinds cls msg) ∧
              enabled st = false ∧ enabled st' = true ∧
              match filename_ with
              | VString name =>
                  source_filename st' = Some name ∧ source_regex st' = source_regex st
              | VRegexp re => source_filename st' = None ∧ source_regex st' = Some re
              | VObject => False
              end ∧
              ∀ stale' filename' blk',
                ∃ msg', lineprof_block stale' st' filename' blk'
                          = Raised "ArgumentError" msg' st')).
Proof.
  assert (∀ s, enabled s = true → ∀ stale' filename' blk',
            ∃ msg', lineprof_block stale' s filename' blk' = Raised "ArgumentError" msg' s)
    as Hrefused.
  { intros s Hs stale' filename' [[body fin]|]; unfold lineprof_block;
      rewrite ?Hs; by eexists. }
  split.
  - intros [->|[Hen| ->]].
    + by eexists.
    + by apply Hrefused.
    + unfold lineprof_block. destruct blk as [[body fin]|]; [|by eexists].
      destruct (enabled st); by eexists.
  - intros cls msg st' H. unfold lineprof_block in H.
    destruct blk as [[body fin]|]; [|simplify_eq; left; auto].
    destruct (enabled st) eqn:Hen; [simplify_eq; left; auto|].
    destruct filename_ as [name|re|]; simpl in H; [| |simplify_eq; left; auto].
    + destruct (cleanup_Some stale
                  (mk_rblineprof (enabled st) (Some name) (file st) (source_regex st)
                     (files st)))
        as (tbl & _ & Hc).
      rewrite Hc in H. clear Hc.
      destruct (run_block _ body) as [log [st3|]] eqn:Hrun; [|done].
      destruct fin as [|c m]; [by destruct (report _)|]. simplify_eq.
      apply run_block_mode in Hrun as (Hn & Hr & He). simpl in *.
      right. exists body. repeat split; try done. by apply Hrefused.
    + destruct (cleanup_Some stale
                  (mk_rblineprof (enabled st) None (file st) (Some re) (files st)))
        as (tbl & _ & Hc).
      rewrite Hc in H. clear Hc.
      destruct (run_block _ body) as [log [st3|]] eqn:Hrun; [|done].
      destruct fin as [|c m]; [by destruct (report _)|]. simplify_eq.
      apply run_block_mode in Hrun as (Hn & Hr & He). simpl in *.
      right. exists body. repeat split; try done. by apply Hrefused.
Qed.

(** X1 on a first session whose block raises after one event, and on
    the call that follows. *)
Lemma lineprof_raises_before_or_out_of_the_block_witness :
  let st1 := mk_rblineprof true (Some "a") (mk_sourcefile (Some "a") None 0 10 5) None ∅ in
  lineprof_block ST_CONTINUE Init_rblineprof (VString "a")
    (Some ([ev "a" 5 10], Unwinds "RuntimeError" "boom"))
    = Raised "RuntimeError" "boom" st1 ∧
  enabled st1 = true ∧
  (∃ msg, lineprof_block ST_CONTINUE st1 (VString "a") (Some ([], Completes))
            = Raised "ArgumentError" msg st1).
Proof.
  intros st1. split; [vm_compute; reflexivity|]. split; [reflexivity|].
  apply (lineprof_raises_before_or_out_of_the_block ST_CONTINUE st1 (VString "a")
           (Some ([], Completes))).
  right. left. reflexivity.
Defined.

(** X2.  A call that returns a report was made with the profiler
    disabled and leaves it disabled, in the mode its argument selects; a
    String leaves the pattern of an earlier call in place. *)
Theorem returned_session_is_disabled stale st filename_ blk rep st' :
  lineprof stale st filename_ blk = Returned rep st' →
  enabled st = false ∧ enabled st' = false ∧
  match filename_ with
  | VString name => source_filename st' = Some name ∧ source_regex st' = source_regex st
  | VRegexp re => source_filename st' = None ∧ source_regex st' = Some re
  | VObject => False
  end.
Proof.
  intros H.
  destruct blk as [body|]; [|done].
  destruct (enabled st) eqn:Hen; [by unfold lineprof in H; rewrite Hen in H|].
  split; [done|].
  destruct filename_ as [name|re|].
  - destruct (lineprof_string stale st name body Hen) as [tbl Heq].
    rewrite Heq in H. destruct (run_block _ body) as [log [st3|]] eqn:Hrun; [|done].
    destruct (line_array (file st3)); [|done]. simplify_eq.
    apply run_block_mode in Hrun as (Hn & Hr & _). simpl in *. by rewrite Hn, Hr.
  - destruct (lineprof_regexp stale st re body Hen) as (tbl & _ & Heq).
    rewrite Heq in H. destruct (run_block _ body) as [log [st3|]] eqn:Hrun; [|done].
    destruct (st_foreach (files st3) summarize_files ∅) as [[??]|]; [|done]. simplify_eq.
    apply run_block_mode in Hrun as (Hn & Hr & _). simpl in *. by rewrite Hn, Hr.
  - unfold lineprof in H. by rewrite Hen in H.
Qed.

(** X2 on a first session in single file mode. *)
Lemma returned_session_is_disabled_witness :
  enabled Init_rblineprof = false ∧
  enabled (mk_rblineprof false (Some "a") (mk_sourcefile (Some "a") None 0 10 5) None ∅)
    = false ∧
  source_filename
    (mk_rblineprof false (Some "a") (mk_sourcefile (Some "a") None 0 10 5) None ∅)
    = Some "a" ∧
  source_regex
    (mk_rblineprof false (Some "a") (mk_sourcefile (Some "a") None 0 10 5) None ∅)
    = source_regex Init_rblineprof.
Proof.
  apply (returned_session_is_disabled ST_CONTINUE Init_rblineprof (VString "a")
           (Some [ev "a" 5 10]) {[ "a" := [] ]}).
  vm_compute. reflexivity.
Defined.

(** ** The store of one event *)

(** Lines 87-96 on a structure whose array and size agree: the array
    exists afterwards, has the size [capacity_at_store] and holds the
    counters it held. *)
Lemma prepared_for_store sf line heap :
  sized sf →
  ∃ l, lines (grow_if_necessary line heap (allocate_first line sf)) = Some l ∧
       nlines (grow_if_necessary line heap (allocate_first line sf))
         = capacity_at_store sf line ∧
       length l = capacity_at_store sf line ∧
       (∀ i, (i < nlines sf)%nat → l !! i = counters sf !! i) ∧
       ((∀ i, heap i = 0) → ∀ i, (nlines sf ≤ i < capacity_at_store sf line)%nat →
                                 l !! i = Some 0).
Proof.
  unfold sized, allocate_first, grow_if_necessary, capacity_at_store, counters.
  intros Hsz. destruct (lines sf) as [l|] eqn:Hl; simpl.
  - rewrite Hl. destruct (decide (nlines sf ≤ line)%nat) as [Hgrow|Hroom]; simpl.
    + eexists. split; [done|]. split; [done|].
      split; [apply length_realloc_lines; lia|]. split.
      * intros i Hi. apply realloc_lines_old; lia.
      * intros Hz i Hi. rewrite realloc_lines_new by lia. by rewrite Hz.
    + rewrite Hl. eexists. split; [done|]. split; [done|]. split; [done|].
      split; [done|]. intros _ i Hi. lia.
  - rewrite decide_False by lia. simpl. rewrite Hsz.
    rewrite decide_True by lia.
    eexists. split; [done|]. split; [done|].
    split; [apply length_calloc_lines|]. split.
    + intros i Hi. lia.
    + intros _ i Hi. apply lookup_calloc_lines. lia.
Qed.

(** X3.  On a structure whose array and size agree, a hook call goes
    wrong exactly when an earlier event was seen and the line of that
    event is not below the size the array has at the store. *)
Theorem store_fails_exactly_when sf line now heap :
  sized sf →
  (record_sample sf line now heap = None ↔
   last_time sf ≠ 0 ∧ (capacity_at_store sf line ≤ last_line sf)%nat).
Proof.
  intros Hsz. unfold record_sample.
  destruct (decide (last_time sf = 0)) as [Hz|Hnz]; simpl.
  { split; [done|]. by intros [? _]. }
  destruct (prepared_for_store sf line heap Hsz) as (l & Hl & Hn & Hlen & _).
  unfold store_sample. rewrite Hl. simpl.
  assert (last_line (grow_if_necessary line heap (allocate_first line sf)) = last_line sf)
    as -> by (unfold grow_if_necessary, allocate_first;
              repeat (case_match; simpl); done).
  destruct (l !! last_line sf) as [old|] eqn:Hold; simpl.
  - apply lookup_lt_Some in Hold. split; [done|]. intros [_ ?]. lia.
  - apply lookup_ge_None_1 in Hold. split; [|done]. intros _. split; [done|lia].
Qed.

(** X3 on a structure that last saw line 500 and has no array yet, at an
    event of line 1. *)
Lemma store_fails_exactly_when_witness :
  record_sample (mk_sourcefile (Some "a") None 0 1 500) 1 2 no_heap = None ↔
  last_time (mk_sourcefile (Some "a") None 0 1 500) ≠ 0 ∧
  (capacity_at_store (mk_sourcefile (Some "a") None 0 1 500) 1
   ≤ last_line (mk_sourcefile (Some "a") None 0 1 500))%nat.
Proof.
  apply (store_fails_exactly_when (mk_sourcefile (Some "a") None 0 1 500) 1 2 no_heap).
  reflexivity.
Defined.

Lemma prepared_fields sf line heap :
  filename (grow_if_necessary line heap (allocate_first line sf)) = filename sf ∧
  last_time (grow_if_necessary line heap (allocate_first line sf)) = last_time sf ∧
  last_line (grow_if_necessary line heap (allocate_first line sf)) = last_line sf.
Proof.
  unfold grow_if_necessary, allocate_first. by repeat (case_match; simpl).
Qed.

(** What a hook call that goes well does to a structure. *)
Lemma record_sample_Some sf line now heap sf' :
  sized sf → record_sample sf line now heap = Some sf' →
  (last_time sf = 0 ∧ sf' = set_last now line sf) ∨
  (last_time sf ≠ 0 ∧ (last_line sf < capacity_at_store sf line)%nat ∧
   ∃ l old,
     length l = capacity_at_store sf line ∧
     l !! last_line sf = Some old ∧
     (∀ i, (i < nlines sf)%nat → l !! i = counters sf !! i) ∧
     ((∀ i, heap i = 0) → ∀ i, (nlines sf ≤ i < capacity_at_store sf line)%nat →
                               l !! i = Some 0) ∧
     sf' = mk_sourcefile (filename sf)
             (Some (<[last_line sf := u64 (old + u64 (now - last_time sf))]> l))
             (capacity_at_store sf line) now line).
Proof.
  intros Hsz. unfold record_sample.
  destruct (decide (last_time sf = 0)) as [Hz|Hnz]; simpl.
  { intros ?. simplify_eq. by left. }
  destruct (prepared_for_store sf line heap Hsz) as (l & Hl & Hn & Hlen & Hold & Hnew).
  destruct (prepared_fields sf line heap) as (Hf & Ht & Hll).
  unfold store_sample. rewrite Hl. simpl. rewrite Hll.
  destruct (l !! last_line sf) as [old|] eqn:Hlook; simpl; [|done].
  intros ?. simplify_eq. right. split; [done|].
  split; [apply lookup_lt_Some in Hlook; lia|].
  exists l, old. repeat split; try done.
  unfold set_last, set_lines. simpl. by rewrite Hf, Hn.
Qed.

Lemma nlines_le_capacity sf line : (nlines sf ≤ capacity_at_store sf line)%nat.
Proof. unfold capacity_at_store. case_decide; lia. Qed.

Lemma line_lt_capacity sf line : (line < capacity_at_store sf line)%nat.
Proof. unfold capacity_at_store. case_decide; lia. Qed.

(** X4.  A hook call that goes well on a structure whose array and size
    agree never shrinks the array and changes at most one counter, the
    one of the line seen last; the first event of a file changes none.
    It records the time and the line of the event and keeps the name. *)
Theorem store_keeps_other_counters sf line now heap sf' :
  sized sf → record_sample sf line now heap = Some sf' →
  sized sf' ∧
  last_time sf' = now ∧ last_line sf' = line ∧ filename sf' = filename sf ∧
  (nlines sf ≤ nlines sf')%nat ∧
  (∀ i, (i < nlines sf)%nat → last_time sf = 0 ∨ i ≠ last_line sf →
        counters sf' !! i = counters sf !! i) ∧
  (last_time sf = 0 → lines sf' = lines sf).
Proof.
  intros Hsz H.
  destruct (record_sample_Some _ _ _ _ _ Hsz H)
    as [[Hz ->]|(Hnz & Hroom & l & old & Hlen & Hlook & Hold & _ & ->)].
  - repeat split; try done.
  - pose proof (nlines_le_capacity sf line).
    repeat split; try done.
    + unfold sized. simpl. by rewrite length_insert.
    + intros i Hi [Hz|Hne]; [done|]. unfold counters at 1. simpl.
      rewrite list_lookup_insert_ne by done. by apply Hold.
Qed.

(** X4 on an array of 102 counters with 10 at line 1, for an event at
    line 200 that grows it and bills line 2. *)
Lemma store_keeps_other_counters_witness :
  let sf := mk_sourcefile (Some "a") (Some (<[1%nat := 10]> (calloc_lines 102))) 102 20 2 in
  let sf' := mk_sourcefile (Some "a")
               (Some (<[2%nat := 10]>
                        (realloc_lines (<[1%nat := 10]> (calloc_lines 102)) 300 (λ _, 7))))
               300 30 200 in
  sized sf' ∧
  last_time sf' = 30 ∧ last_line sf' = 200%nat ∧ filename sf' = filename sf ∧
  (nlines sf ≤ nlines sf')%nat ∧
  (∀ i, (i < nlines sf)%nat → last_time sf = 0 ∨ i ≠ last_line sf →
        counters sf' !! i = counters sf !! i) ∧
  (last_time sf = 0 → lines sf' = lines sf).
Proof.
  intros sf sf'.
  apply (store_keeps_other_counters sf 200 30 (λ _, 7) sf').
  - reflexivity.
  - vm_compute. reflexivity.
Defined.

(** ** Stores after the first *)

Lemma record_sample_inside sf line now heap :
  inside sf → now ≠ 0 →
  ∃ sf', record_sample sf line now heap = Some sf' ∧ inside sf'.
Proof.
  intros (Hsz & Hl & Hin & Hnz) Hnow.
  destruct (record_sample sf line now heap) as [sf'|] eqn:H.
  - exists sf'. split; [done|].
    destruct (record_sample_Some _ _ _ _ _ Hsz H)
      as [[Hz _]|(_ & Hroom & l & old & Hlen & Hlook & _ & _ & ->)]; [done|].
    repeat split; try done.
    + unfold sized. simpl. by rewrite length_insert.
    + simpl. apply line_lt_capacity.
  - exfalso. unfold record_sample in H. rewrite decide_False in H by done.
    destruct (prepared_for_store sf line heap Hsz) as (l & Hl' & Hn & Hlen & _).
    destruct (prepared_fields sf line heap) as (_ & _ & Hll).
    unfold store_sample in H. rewrite Hl' in H. simpl in H. rewrite Hll in H.
    pose proof (nlines_le_capacity sf line).
    destruct (lookup_lt_is_Some_2 l (last_line sf)) as [old Hold]; [lia|].
    rewrite Hold in H. done.
Qed.

(** X5.  In single file mode, once the array exists with the last line
    inside it, no later event goes wrong, whatever its line, as long as
    the clock never reads 0; the array keeps existing and the last line
    stays inside. *)
Theorem stores_stay_inside_once_allocated name blk : ∀ st,
  source_filename st = Some name →
  inside (file st) →
  Forall (λ e, ev_now e ≠ 0) blk →
  ∃ st', run_block st blk = ([], Some st') ∧ inside (file st').
Proof.
  induction blk as [|e blk IH]; intros st Hname Hin Hclock.
  { by exists st. }
  apply Forall_cons in Hclock as [Hnow Hclock].
  destruct (decide (nd_file e = name)) as [He|He].
  - destruct (record_sample_inside (set_filename (Some name) (file st))
                (nd_line e) (ev_now e) (ev_heap e)) as (sf' & Hrs & Hin'); [done..|].
    erewrite run_block_cons_ok; last first.
    { erewrite profiler_hook_same_file by done. by rewrite Hrs. }
    destruct (IH (set_file sf' st)) as (st' & Hrun & Hin''); [done..|].
    exists st'. by rewrite Hrun.
  - erewrite run_block_cons_ok by (by eapply profiler_hook_other_file).
    destruct (IH st) as (st' & Hrun & Hin''); [done..|].
    exists st'. by rewrite Hrun.
Qed.

(** X5 on an array of 102 counters with the last line at 2: a jump to
    line 900 and back to line 1. *)
Lemma stores_stay_inside_once_allocated_witness :
  ∃ st',
    run_block
      (mk_rblineprof true (Some "a")
         (mk_sourcefile (Some "a") (Some (calloc_lines 102)) 102 20 2) None ∅)
      [ev "a" 900 30; ev "b" 5 35; ev "a" 1 40] = ([], Some st') ∧
    inside (file st').
Proof.
  apply (stores_stay_inside_once_allocated "a" [ev "a" 900 30; ev "b" 5 35; ev "a" 1 40]).
  - reflexivity.
  - repeat split; simpl; try done; lia.
  - repeat constructor; done.
Defined.

(** ** The two modes *)

Lemma profiler_hook_single_registry st e log st' :
  is_Some (source_filename st) → profiler_hook st e = (log, Some st') →
  log = [] ∧ files st' = files st.
Proof.
  intros [name Hname]. unfold profiler_hook. rewrite Hname.
  case_decide; intros ?; simplify_eq; [|done]. by open_bind.
Qed.

Lemma profiler_hook_pattern_file st e log st' :
  source_filename st = None → profiler_hook st e = (log, Some st') →
  file st' = file st.
Proof.
  intros Hname. unfold profiler_hook. rewrite Hname. intros H.
  repeat (case_match; simplify_eq/=); try done; by open_bind.
Qed.

(** X6.  The events of a block never change the enabled flag, the
    configured file name or the pattern.  In single file mode they search
    no pattern and leave the registry alone; in pattern mode they leave
    the single file structure alone. *)
Theorem modes_are_separate blk : ∀ st log st',
  run_block st blk = (log, Some st') →
  enabled st' = enabled st ∧
  source_filename st' = source_filename st ∧
  source_regex st' = source_regex st ∧
  (is_Some (source_filename st) → log = [] ∧ files st' = files st) ∧
  (source_filename st = None → file st' = file st).
Proof.
  induction blk as [|e blk IH]; intros st log st' H; simpl in H.
  { by simplify_eq. }
  destruct (profiler_hook st e) as [log1 [st1|]] eqn:Hh; [|done].
  destruct (run_block st1 blk) as [log2 r] eqn:Hr. simplify_eq.
  destruct (IH _ _ _ Hr) as (Hen & Hname & Hre & Hsingle & Hpattern).
  destruct (profiler_hook_mode _ _ _ _ Hh) as (Hname1 & Hre1 & Hen1).
  rewrite Hen, Hname, Hre, Hname1, Hre1, Hen1. repeat split.
  - destruct (profiler_hook_single_registry _ _ _ _ H Hh) as [-> _].
    rewrite <- Hname1 in H. by destruct (Hsingle H) as [-> _].
  - destruct (profiler_hook_single_registry _ _ _ _ H Hh) as [_ <-].
    rewrite <- Hname1 in H. by destruct (Hsingle H) as [_ ->].
  - intros Hnone. rewrite Hpattern by congruence.
    by eapply profiler_hook_pattern_file.
Qed.

(** X6 on a block of three events in pattern mode. *)
Lemma modes_are_separate_witness :
  let st := mk_rblineprof true None (mk_sourcefile (Some "z") None 0 3 4) (Some only_a) ∅ in
  let st' := mk_rblineprof true None (mk_sourcefile (Some "z") None 0 3 4) (Some only_a)
               (<[ "b" := Qnil ]>
                  {[ "a" := Ptr (mk_sourcefile (Some "a")
                                   (Some (<[1%nat := 900]> (calloc_lines 102)))
                                   102 901 2) ]}) in
  enabled st' = enabled st ∧
  source_filename st' = source_filename st ∧
  source_regex st' = source_regex st ∧
  (is_Some (source_filename st) → ["a"; "b"] = [] ∧ files st' = files st) ∧
  (source_filename st = None → file st' = file st).
Proof.
  intros st st'.
  apply (modes_are_separate (two_files 1 no_heap) st ["a"; "b"] st').
  vm_compute. reflexivity.
Defined.

(** ** The registry during a block *)

(** A call in pattern mode, by what the table holds for the file. *)
Lemma profiler_hook_pattern st e re log st' :
  source_filename st = None → source_regex st = Some re →
  profiler_hook st e = (log, Some st') →
  match files st !! nd_file e with
  | Some Qnil => log = [] ∧ files st' = files st
  | Some (Ptr sf) => log = [] ∧ ∃ sf', files st' = <[nd_file e := Ptr sf']> (files st)
  | None =>
      log = [nd_file e] ∧
      ((0 ≤ rb_reg_search re (nd_file e) ∧
        ∃ sf', files st' = <[nd_file e := Ptr sf']> (files st)) ∨
       (rb_reg_search re (nd_file e) < 0 ∧
        files st' = <[nd_file e := Qnil]> (files st)))
  end.
Proof.
  intros Hname Hre. unfold profiler_hook. rewrite Hname, Hre. intros H.
  destruct (files st !! nd_file e) as [[|sf]|]; simplify_eq/=.
  - done.
  - open_bind. split; [done|]. by eexists.
  - case_decide; simplify_eq/=.
    + open_bind. split; [done|]. left. split; [done|]. by eexists.
    + split; [done|]. right. split; [lia|done].
Qed.

(** What the table says about a file does not change in kind. *)
Lemma run_block_stable blk : ∀ st log st' k,
  run_block st blk = (log, Some st') →
  (files st !! k = Some Qnil → files st' !! k = Some Qnil) ∧
  (∀ sf, files st !! k = Some (Ptr sf) →
         ∃ sf', files st' !! k = Some (Ptr sf') ∧ filename sf' = filename sf).
Proof.
  induction blk as [|e blk IH]; intros st log st' k H; simpl in H.
  { simplify_eq. split; [done|]. intros sf ?. by exists sf. }
  destruct (profiler_hook st e) as [log1 [st1|]] eqn:Hh; [|done].
  destruct (run_block st1 blk) as [log2 r] eqn:Hr. simplify_eq.
  destruct (IH _ _ _ k Hr) as [Hq Hp]. split.
  - intros Hk. by eapply Hq, profiler_hook_sentinel.
  - intros sf Hk.
    assert (∃ sf1, files st1 !! k = Some (Ptr sf1) ∧ filename sf1 = filename sf)
      as (sf1 & Hk1 & Hf1).
    { destruct (profiler_hook_files _ _ _ _ Hh)
        as [->|[(sf0 & sf' & Hl & Hrs & ->)|[(sf' & Hl & _ & ->)|[Hl ->]]]].
      - by exists sf.
      - destruct (decide (nd_file e = k)) as [<-|Hne].
        + rewrite lookup_insert_eq. exists sf'. split; [done|].
          rewrite (record_sample_filename _ _ _ _ _ Hrs). congruence.
        + rewrite lookup_insert_ne by done. by exists sf.
      - destruct (decide (nd_file e = k)) as [<-|Hne]; [congruence|].
        rewrite lookup_insert_ne by done. by exists sf.
      - destruct (decide (nd_file e = k)) as [<-|Hne]; [congruence|].
        rewrite lookup_insert_ne by done. by exists sf. }
    destruct (Hp sf1 Hk1) as (sf' & Hk' & Hf'). exists sf'. split; [done|congruence].
Qed.

Lemma profiler_hook_pattern_keys st e re log st' f :
  source_filename st = None → source_regex st = Some re →
  profiler_hook st e = (log, Some st') →
  (f ≠ nd_file e → files st' !! f = files st !! f) ∧
  is_Some (files st' !! nd_file e).
Proof.
  intros Hname Hre Hh.
  pose proof (profiler_hook_pattern _ _ _ _ _ Hname Hre Hh) as Hp.
  destruct (files st !! nd_file e) as [[|sf]|] eqn:Hl.
  - destruct Hp as [_ ->]. rewrite Hl. split; [done|by eexists].
  - destruct Hp as [_ [sf' ->]]. rewrite lookup_insert_eq. split; [|by eexists].
    intros Hne. by rewrite lookup_insert_ne.
  - destruct Hp as [_ [[_ [sf' ->]]|[_ ->]]]; rewrite lookup_insert_eq;
      (split; [|by eexists]); intros Hne; by rewrite lookup_insert_ne.
Qed.

(** The registry after a block in pattern mode. *)
Lemma run_block_pattern blk : ∀ st re log st',
  source_filename st = None → source_regex st = Some re →
  run_block st blk = (log, Some st') →
  ∀ f,
    (f ∈ log ↔ f ∈ nd_file <$> blk ∧ files st !! f = None) ∧
    (is_Some (files st' !! f) ↔ is_Some (files st !! f) ∨ f ∈ nd_file <$> blk) ∧
    (files st !! f = Some Qnil → files st' !! f = Some Qnil) ∧
    (∀ sf, files st !! f = Some (Ptr sf) → ∃ sf', files st' !! f = Some (Ptr sf')) ∧
    (files st !! f = None → f ∈ nd_file <$> blk →
     (files st' !! f = Some Qnil ↔ rb_reg_search re f < 0)).
Proof.
  induction blk as [|e blk IH]; intros st re log st' Hname Hre H f.
  { simpl in H. simplify_eq. rewrite fmap_nil.
    split; [split; [by intros ?%elem_of_nil|by intros [?%elem_of_nil _]]|].
    split; [split; [by left|by intros [?|?%elem_of_nil]]|].
    split; [done|]. split; [intros sf ?; by exists sf|].
    by intros ? ?%elem_of_nil. }
  assert (Hst := run_block_stable _ _ _ _ f H).
  simpl in H.
  destruct (profiler_hook st e) as [log1 [st1|]] eqn:Hh; [|done].
  destruct (run_block st1 blk) as [log2 r] eqn:Hr. simplify_eq.
  destruct (profiler_hook_mode _ _ _ _ Hh) as (Hname1 & Hre1 & _).
  rewrite Hname in Hname1. rewrite Hre in Hre1.
  destruct (IH _ _ _ _ Hname1 Hre1 Hr f) as (Hlog & Hdom & _ & _ & Hdec).
  destruct (profiler_hook_pattern_keys _ _ _ _ _ f Hname Hre Hh) as [Hother Hthis].
  pose proof (profiler_hook_pattern _ _ _ _ _ Hname Hre Hh) as Hp.
  rewrite fmap_cons, elem_of_app, elem_of_cons, Hlog, Hdom.
  destruct Hst as [Hq Hptr].
  destruct (decide (f = nd_file e)) as [->|Hne].
  - (* the file of this event *)
    split; [|split; [|split; [done|split]]].
    + destruct (files st !! nd_file e) as [[|sf]|] eqn:Hl.
      * destruct Hp as [-> _]. split; [|by intros [_ ?]].
        intros [?%elem_of_nil|[_ Hn]]; [done|]. rewrite Hn in Hthis. by destruct Hthis.
      * destruct Hp as [-> _]. split; [|by intros [_ ?]].
        intros [?%elem_of_nil|[_ Hn]]; [done|]. rewrite Hn in Hthis. by destruct Hthis.
      * destruct Hp as [-> _]. split; [by intros _; split; [left|]|].
        intros _. left. by apply list_elem_of_singleton.
    + split; [intros _; by right; left|]. intros _. by left.
    + intros sf Hsf. destruct (Hptr sf Hsf) as (sf' & ? & _). by exists sf'.
    + intros Hnone _. rewrite Hnone in Hp.
      destruct Hp as [_ [[Hmatch [sf' Hfiles]]|[Hmiss Hfiles]]].
      * assert (files st1 !! nd_file e = Some (Ptr sf')) as H1
          by (rewrite Hfiles; apply lookup_insert_eq).
        destruct (run_block_stable _ _ _ _ (nd_file e) Hr) as [_ Hp1].
        destruct (Hp1 _ H1) as (sf'' & H2 & _). rewrite H2. split; [done|lia].
      * assert (files st1 !! nd_file e = Some Qnil) as H1
          by (rewrite Hfiles; apply lookup_insert_eq).
        destruct (run_block_stable _ _ _ _ (nd_file e) Hr) as [Hq1 _].
        by rewrite (Hq1 H1).
  - (* another file *)
    rewrite (Hother Hne) in *.
    assert (f ∉ log1) as Hnot.
    { destruct (profiler_hook_log _ _ _ _ Hh) as [->|[-> _]].
      - apply not_elem_of_nil.
      - by intros ?%list_elem_of_singleton. }
    split; [|split; [|split; [done|split]]].
    + split.
      * intros [?|[? ?]]; [done|]. split; [by right|done].
      * intros [[?|?] ?]; [done|]. by right.
    + split.
      * intros [?|?]; [by left|]. right. by right.
      * intros [?|[?|?]]; [by left|done|by right].
    + intros sf Hsf. destruct (Hptr sf Hsf) as (sf' & ? & _). by exists sf'.
    + intros Hnone [?|Hin]; [done|]. by apply Hdec.
Qed.

(** X7.  After a block in pattern mode that went well, for every file
    name: it was searched exactly if an event of the block names it and
    the registry did not know it; the registry knows it exactly if it
    knew it or an event names it; what the registry said before it still
    says (rejected stays rejected, matched stays matched); and a file it
    learned during the block is rejected exactly if the pattern does not
    match its name. *)
Theorem pattern_registry_after_block blk : ∀ st re log st',
  source_filename st = None → source_regex st = Some re →
  run_block st blk = (log, Some st') →
  ∀ f,
    (f ∈ log ↔ f ∈ nd_file <$> blk ∧ files st !! f = None) ∧
    (is_Some (files st' !! f) ↔ is_Some (files st !! f) ∨ f ∈ nd_file <$> blk) ∧
    (files st !! f = Some Qnil → files st' !! f = Some Qnil) ∧
    (∀ sf, files st !! f = Some (Ptr sf) → ∃ sf', files st' !! f = Some (Ptr sf')) ∧
    (files st !! f = None → f ∈ nd_file <$> blk →
     (files st' !! f = Some Qnil ↔ rb_reg_search re f < 0)).
Proof. apply run_block_pattern. Qed.

(** X7 on the two-file example with ["c"] rejected beforehand. *)
Lemma pattern_registry_after_block_witness :
  let st := mk_rblineprof true None zeroed_sourcefile (Some only_a) {[ "c" := Qnil ]} in
  let st' := mk_rblineprof true None zeroed_sourcefile (Some only_a)
               (<[ "b" := Qnil ]>
                  (<[ "a" := Ptr (mk_sourcefile (Some "a")
                                    (Some (<[1%nat := 900]> (calloc_lines 102)))
                                    102 901 2) ]> {[ "c" := Qnil ]})) in
  ("b" ∈ ["a"; "b"] ↔ "b" ∈ nd_file <$> two_files 1 no_heap ∧ files st !! "b" = None) ∧
  (is_Some (files st' !! "b") ↔
   is_Some (files st !! "b") ∨ "b" ∈ nd_file <$> two_files 1 no_heap) ∧
  (files st !! "b" = Some Qnil → files st' !! "b" = Some Qnil) ∧
  (∀ sf, files st !! "b" = Some (Ptr sf) → ∃ sf', files st' !! "b" = Some (Ptr sf')) ∧
  (files st !! "b" = None → "b" ∈ nd_file <$> two_files 1 no_heap →
   (files st' !! "b" = Some Qnil ↔ rb_reg_search only_a "b" < 0)).
Proof.
  intros st st'.
  apply (pattern_registry_after_block (two_files 1 no_heap) st only_a ["a"; "b"] st').
  - reflexivity.
  - reflexivity.
  - vm_compute. reflexivity.
Defined.

(** ** One file at a time *)

Lemma profiler_hook_other_entry st e log st' f :
  profiler_hook st e = (log, Some st') → f ≠ nd_file e →
  files st' !! f = files st !! f.
Proof.
  intros Hh Hne.
  destruct (profiler_hook_files _ _ _ _ Hh)
    as [->|[(sf & sf' & _ & _ & ->)|[(sf' & _ & _ & ->)|[_ ->]]]]; [done|..];
    by rewrite lookup_insert_ne.
Qed.

Lemma profiler_hook_agree_same f st1 st2 e log st1' :
  agree_on f st1 st2 → nd_file e = f →
  profiler_hook st1 e = (log, Some st1') →
  ∃ st2', profiler_hook st2 e = (log, Some st2') ∧ agree_on f st1' st2'.
Proof.
  intros (Hname & Hre & Hent & Hfile) He. unfold profiler_hook.
  rewrite <- Hname, <- Hre, He, <- Hent.
  destruct (source_filename st1) as [name|] eqn:Hn.
  - case_decide as Hd; intros H; simplify_eq.
    + rewrite <- (Hfile eq_refl). open_bind.
      match goal with H : record_sample _ _ _ _ = Some _ |- _ => rewrite H end.
      simpl. eexists. split; [done|]. unfold agree_on. simpl.
      by rewrite Hn, <- Hname.
    + exists st2. split; [done|]. unfold agree_on. rewrite Hn.
      repeat split; try done.
  - destruct (files st1 !! f) as [[|sf]|] eqn:Hl; intros H; simplify_eq/=.
    + exists st2. split; [done|]. unfold agree_on. by rewrite Hn, Hl.
    + open_bind.
      match goal with H : record_sample _ _ _ _ = Some _ |- _ => rewrite H end.
      simpl. eexists. split; [done|]. unfold agree_on. simpl.
      rewrite Hn, !lookup_insert_eq. by rewrite <- Hname.
    + destruct (source_regex st1) as [re|] eqn:Hr; [|done].
      case_decide; simplify_eq/=.
      * open_bind.
        try match goal with H : record_sample _ _ _ _ = Some _ |- _ => rewrite H end.
        simpl. eexists. split; [done|]. unfold agree_on. simpl.
        rewrite Hn, !lookup_insert_eq. repeat split; congruence.
      * eexists. split; [done|]. unfold agree_on. simpl.
        rewrite Hn, !lookup_insert_eq. repeat split; congruence.
Qed.

Lemma profiler_hook_agree_other f st1 st2 e log st1' :
  agree_on f st1 st2 → nd_file e ≠ f →
  profiler_hook st1 e = (log, Some st1') →
  agree_on f st1' st2.
Proof.
  intros (Hname & Hre & Hent & Hfile) He Hh.
  destruct (profiler_hook_mode _ _ _ _ Hh) as (Hname1 & Hre1 & _).
  unfold agree_on. rewrite Hname1, Hre1.
  rewrite (profiler_hook_other_entry _ _ _ _ f Hh) by done.
  repeat split; try done.
  intros Hn. rewrite <- (Hfile Hn).
  unfold profiler_hook in Hh. rewrite Hn in Hh.
  rewrite decide_False in Hh by done. by simplify_eq.
Qed.

(** X8.  What a block records for a file depends on the events of that
    file only: from two states that select files the same way and hold
    the same for [f], a block that goes well and the events of [f] in it
    alone end in states that again hold the same for [f].  The time
    between two events of a file is billed to that file, whatever other
    files ran in between. *)
Theorem file_record_depends_on_its_events f blk : ∀ st1 st2 log st1',
  agree_on f st1 st2 →
  run_block st1 blk = (log, Some st1') →
  ∃ log2 st2',
    run_block st2 (filter (λ e, nd_file e = f) blk) = (log2, Some st2') ∧
    agree_on f st1' st2'.
Proof.
  induction blk as [|e blk IH]; intros st1 st2 log st1' Hag H; simpl in H.
  { simplify_eq. by exists [], st2. }
  destruct (profiler_hook st1 e) as [log1 [st1a|]] eqn:Hh; [|done].
  destruct (run_block st1a blk) as [log1' r] eqn:Hr. simplify_eq.
  destruct (decide (nd_file e = f)) as [He|He].
  - rewrite filter_cons_True by done.
    destruct (profiler_hook_agree_same _ _ _ _ _ _ Hag He Hh) as (st2a & Hh2 & Hag2).
    destruct (IH _ _ _ _ Hag2 Hr) as (log2 & st2' & Hrun2 & Hag').
    exists (log1 ++ log2), st2'. split; [|done].
    erewrite run_block_cons_ok by done. by rewrite Hrun2.
  - rewrite filter_cons_False by done.
    eapply IH; [|done]. by eapply profiler_hook_agree_other.
Qed.

(** X8 on the two-file example: the events of ["a"] alone, from a state
    that does not know ["c"]. *)
Lemma file_record_depends_on_its_events_witness :
  ∃ log2 st2',
    run_block (mk_rblineprof true None zeroed_sourcefile (Some only_a) ∅)
      (filter (λ e, nd_file e = "a") (two_files 1 no_heap)) = (log2, Some st2') ∧
    agree_on "a"
      (mk_rblineprof true None zeroed_sourcefile (Some only_a)
         (<[ "b" := Qnil ]>
            (<[ "a" := Ptr (mk_sourcefile (Some "a")
                              (Some (<[1%nat := 900]> (calloc_lines 102)))
                              102 901 2) ]> {[ "c" := Qnil ]})))
      st2'.
Proof.
  apply (file_record_depends_on_its_events "a" (two_files 1 no_heap)
           (mk_rblineprof true None zeroed_sourcefile (Some only_a) {[ "c" := Qnil ]})
           (mk_rblineprof true None zeroed_sourcefile (Some only_a) ∅)
           ["a"; "b"]).
  - repeat split.
  - vm_compute. reflexivity.
Defined.

(** ** The report of a pattern session *)

Lemma profiler_hook_entries_sized st e log st' :
  profiler_hook st e = (log, Some st') →
  entries_sized (files st) → entries_sized (files st').
Proof.
  intros Hh Hsz k sf1.
  destruct (profiler_hook_files _ _ _ _ Hh)
    as [->|[(sf & sf' & Hl & Hrs & ->)|[(sf' & Hl & Hrs & ->)|[Hl ->]]]];
    [by apply Hsz|..];
    (destruct (decide (nd_file e = k)) as [<-|Hne];
     [rewrite lookup_insert_eq|rewrite lookup_insert_ne by done; by apply Hsz]);
    intros ?; simplify_eq.
  - eapply record_sample_sized; [|done]. by eapply Hsz.
  - eapply record_sample_sized; [|done]. done.
Qed.

Lemma run_block_entries_sized blk : ∀ st log st',
  run_block st blk = (log, Some st') →
  entries_sized (files st) → entries_sized (files st').
Proof.
  induction blk as [|e blk IH]; intros st log st' H Hsz; simpl in H.
  { by simplify_eq. }
  destruct (profiler_hook st e) as [log1 [st1|]] eqn:Hh; [|done].
  destruct (run_block st1 blk) as [log2 r] eqn:Hr. simplify_eq.
  eapply IH; [done|]. by eapply profiler_hook_entries_sized.
Qed.

(** What [summarize_files] stores for the entries it visits. *)
Lemma summarize_entries_value entries : ∀ tbl ret tbl' ret',
  st_foreach_entries summarize_files entries tbl ret = Some (tbl', ret') →
  NoDup entries.*1 →
  (∀ k sf, (k, Ptr sf) ∈ entries → filename sf = Some k) →
  (∀ k, k ∉ entries.*1 → ret' !! k = ret !! k) ∧
  (∀ k sf, (k, Ptr sf) ∈ entries → is_Some (ret' !! k) ∧ ret' !! k = line_array sf).
Proof.
  induction entries as [|[key rec] entries IH]; intros tbl ret tbl' ret' H Hnd Hnamed;
    simpl in H.
  { simplify_eq. split; [done|]. by intros k sf ?%elem_of_nil. }
  rewrite fmap_cons in Hnd. simpl in Hnd. apply NoDup_cons in Hnd as [Hfresh Hnd].
  destruct rec as [|sf]; simpl in H; [done|].
  destruct (line_array sf) as [ary|] eqn:Hary; simpl in H; [|done].
  rewrite (Hnamed key sf) in H by (by left). simpl in H.
  destruct (IH _ _ _ _ H Hnd) as [Hframe Hval].
  { intros k sf' Hin. apply Hnamed. by right. }
  split.
  - intros k Hk. rewrite fmap_cons in Hk. simpl in Hk.
    apply not_elem_of_cons in Hk as [Hne Hk].
    by rewrite (Hframe k Hk), lookup_insert_ne.
  - intros k sf' [Heq|Hin]%elem_of_cons.
    + simplify_eq. rewrite (Hframe _ Hfresh), lookup_insert_eq, Hary.
      split; [by eexists|done].
    + by apply Hval.
Qed.

(** X9.  A pattern session that returns a report: its keys are exactly
    the files of the events of the block, the pattern matches every one of
    them, and the array under a key is the counter array of the file's
    structure, as long as its recorded size.  Whatever earlier sessions
    left in the registry plays no part. *)
Theorem pattern_report_lists_the_files_seen stale st re blk rep st' :
  lineprof stale st (VRegexp re) (Some blk) = Returned rep st' →
  (∀ f, is_Some (rep !! f) ↔ f ∈ nd_file <$> blk) ∧
  (∀ f, f ∈ nd_file <$> blk → 0 ≤ rb_reg_search re f) ∧
  (∀ f ary, rep !! f = Some ary →
            ∃ sf, files st' !! f = Some (Ptr sf) ∧
                  ary = counters sf ∧ length ary = nlines sf).
Proof.
  intros H.
  assert (enabled st = false) as Hen.
  { destruct (enabled st) eqn:Hen; [|done]. unfold lineprof in H. by rewrite Hen in H. }
  destruct (lineprof_regexp stale st re blk Hen) as (tbl & Hclean & Heq).
  rewrite Heq in H. clear Heq.
  destruct (run_block _ blk) as [log [st3|]] eqn:Hrun; [|done].
  destruct (st_foreach (files st3) summarize_files ∅) as [[t ret]|] eqn:Hsum; [|done].
  simplify_eq. change (files (set_enabled false st3)) with (files st3).
  unfold st_foreach in Hsum.
  destruct (summarize_entries _ _ _ _ _ Hsum) as [Hq Hkeys].
  destruct (run_block_registry _ _ _ _ Hrun) as (Hsent & Hnamed & Hkeysrun).
  simpl in Hsent, Hnamed, Hkeysrun.
  assert (tbl = ∅) as ->.
  { eapply cleanup_without_sentinel_is_empty; [done|].
    intros k Hk. apply (Hq k). apply elem_of_map_to_list. by apply Hsent. }
  specialize (Hnamed ltac:(by intros k sf ?)).
  pose proof (run_block_entries_sized _ _ _ _ Hrun ltac:(by intros k sf ?)) as Hsized.
  destruct (summarize_entries_value _ _ _ _ _ Hsum) as [_ Hval].
  { apply NoDup_fst_map_to_list. }
  { intros k sf Hin. apply Hnamed. by apply elem_of_map_to_list. }
  pose proof (run_block_pattern blk
                (mk_rblineprof true None (free_lines (file st)) (Some re) ∅)
                re log st3 eq_refl eq_refl Hrun) as Hspec.
  simpl in Hspec.
  assert (∀ f, f ∈ nd_file <$> blk → ∃ sf, files st3 !! f = Some (Ptr sf)) as Hseen.
  { intros f Hf.
    destruct (Hspec f) as (_ & Hdom & _).
    destruct (proj2 Hdom (or_intror Hf)) as [[|sf] Hl]; [|by exists sf].
    exfalso. apply (Hq f). by apply elem_of_map_to_list. }
  split; [|split].
  - intros f. split.
    + intros Hf. destruct (Hkeys f Hf) as [Hemp|(k & sf & Hin & Hfn)].
      { rewrite lookup_empty in Hemp. by destruct Hemp. }
      apply elem_of_map_to_list in Hin.
      assert (k = f) as -> by (pose proof (Hnamed _ _ Hin); congruence).
      destruct (Hkeysrun f ltac:(by eexists)) as [Hemp|Hev]; [|done].
      rewrite lookup_empty in Hemp. by destruct Hemp.
    + intros Hf. destruct (Hseen f Hf) as [sf Hl].
      apply (Hval f sf). by apply elem_of_map_to_list.
  - intros f Hf. destruct (Hseen f Hf) as [sf Hl].
    destruct (Hspec f) as (_ & _ & _ & _ & Hdec).
    destruct (decide (0 ≤ rb_reg_search re f)) as [|Hneg]; [done|].
    assert (files st3 !! f = Some Qnil) as Hbad
      by (apply Hdec; [apply lookup_empty|done|lia]).
    congruence.
  - intros f ary Hf.
    destruct (Hkeys f ltac:(by eexists)) as [Hemp|(k & sf & Hin & Hfn)].
    { rewrite lookup_empty in Hemp. by destruct Hemp. }
    destruct (Hval _ _ Hin) as [_ Hv].
    apply elem_of_map_to_list in Hin.
    assert (k = f) as -> by (pose proof (Hnamed _ _ Hin); congruence).
    exists sf. split; [done|].
    rewrite (line_array_sized sf) in Hv by (by eapply Hsized).
    rewrite Hf in Hv. simplify_eq. split; [done|].
    specialize (Hsized _ _ Hin). unfold sized, counters in *.
    destruct (lines sf); simpl; [done|by rewrite Hsized].
Qed.

(** X9 on a first session with four events of two matching files. *)
Lemma pattern_report_lists_the_files_seen_witness :
  let re := mk_regexp (λ s, if decide (s = "b") then -1 else 3) in
  let blk := [ev "a" 1 1; ev "c" 7 2; ev "a" 2 901; ev "c" 8 1000] in
  let rep : gmap string (list Z) :=
    <[ "c" := <[7%nat := 998]> (calloc_lines 108) ]>
      {[ "a" := <[1%nat := 900]> (calloc_lines 102) ]} in
  let st' := mk_rblineprof false None zeroed_sourcefile (Some re)
               (<[ "c" := Ptr (mk_sourcefile (Some "c")
                                 (Some (<[7%nat := 998]> (calloc_lines 108))) 108 1000 8) ]>
                  {[ "a" := Ptr (mk_sourcefile (Some "a")
                                   (Some (<[1%nat := 900]> (calloc_lines 102)))
                                   102 901 2) ]}) in
  (∀ f, is_Some (rep !! f) ↔ f ∈ nd_file <$> blk) ∧
  (∀ f, f ∈ nd_file <$> blk → 0 ≤ rb_reg_search re f) ∧
  (∀ f ary, rep !! f = Some ary →
            ∃ sf, files st' !! f = Some (Ptr sf) ∧
                  ary = counters sf ∧ length ary = nlines sf).
Proof.
  intros re blk rep st'.
  apply (pattern_report_lists_the_files_seen ST_CONTINUE Init_rblineprof re blk rep st').
  vm_compute. reflexivity.
Defined.

(** ** Accounting modulo 2^64 *)

Lemma record_sample_None sf line now heap :
  sized sf → record_sample sf line now heap = None →
  last_time sf ≠ 0 ∧ (capacity_at_store sf line ≤ last_line sf)%nat.
Proof.
  intros Hsz. unfold record_sample.
  destruct (decide (last_time sf = 0)) as [Hz|Hnz]; simpl; [done|].
  destruct (prepared_for_store sf line heap Hsz) as (l & Hl & Hn & Hlen & _).
  destruct (prepared_fields sf line heap) as (_ & _ & Hll).
  unfold store_sample. rewrite Hl. simpl. rewrite Hll.
  destruct (l !! last_line sf) as [old|] eqn:Hold; simpl; [done|].
  apply lookup_ge_None_1 in Hold. intros _. split; [done|lia].
Qed.

Lemma length_counters sf : sized sf → length (counters sf) = nlines sf.
Proof. unfold sized, counters. destruct (lines sf); simpl; [done|]. by intros ->. Qed.

(** An array that keeps the old counters and reads zero beyond them. *)
Lemma zero_extension (l old : list Z) n :
  length l = n → (length old ≤ n)%nat →
  (∀ i, (i < length old)%nat → l !! i = old !! i) →
  (∀ i, (length old ≤ i < n)%nat → l !! i = Some 0) →
  l = old ++ replicate (n - length old) 0.
Proof.
  intros Hlen Hle Hold Hnew. apply list_eq. intros i.
  destruct (decide (i < length old)%nat) as [Hi|Hi].
  - rewrite lookup_app_l by done. by apply Hold.
  - rewrite lookup_app_r by lia.
    destruct (decide (i < n)%nat) as [Hin|Hin].
    + rewrite Hnew by lia. symmetry. apply lookup_replicate_2. lia.
    + rewrite lookup_ge_None_2 by lia. symmetry.
      apply lookup_replicate_None. lia.
Qed.

Lemma total_replicate_zero n : total (replicate n 0) = 0.
Proof. apply total_calloc_lines. Qed.

Lemma record_sample_wrapped sf line now heap t1 :
  wrapped sf t1 → now ≠ 0 → (∀ i, heap i = 0) →
  (lines sf = None → (last_line sf < line + 100)%nat) →
  ∃ sf', record_sample sf line now heap = Some sf' ∧ wrapped sf' t1 ∧
         last_time sf' = now ∧ lines sf' ≠ None.
Proof.
  intros (Hnz & Hsz & Hrange & [k Htot] & Hin) Hnow Hheap Hfirst.
  assert (last_line sf < capacity_at_store sf line)%nat as Hroom.
  { destruct (lines sf) as [l0|] eqn:Hl0.
    - specialize (Hin ltac:(done)). pose proof (nlines_le_capacity sf line). lia.
    - specialize (Hfirst eq_refl). unfold sized in Hsz. rewrite Hl0 in Hsz.
      unfold capacity_at_store. rewrite Hsz. rewrite decide_True by lia. done. }
  destruct (record_sample sf line now heap) as [sf'|] eqn:H; last first.
  { apply record_sample_None in H as [_ ?]; [lia|done]. }
  exists sf'. split; [done|].
  destruct (record_sample_Some _ _ _ _ _ Hsz H)
    as [[Hz _]|(_ & _ & l & old & Hlen & Hlook & Hold & Hnew & ->)]; [done|].
  pose proof (length_counters sf Hsz) as Hlc.
  pose proof (nlines_le_capacity sf line) as Hcap.
  assert (l = counters sf ++ replicate (capacity_at_store sf line - nlines sf) 0) as Hl.
  { rewrite <- Hlc. apply zero_extension; rewrite ?Hlc; try done.
    intros i Hi. by apply Hnew. }
  assert (total l = total (counters sf)) as Htl.
  { rewrite Hl, total_app, total_replicate_zero. lia. }
  assert (Forall (λ c, 0 ≤ c < UINT64_MODULUS) l) as Hrl.
  { rewrite Hl. apply Forall_app. split; [done|].
    apply Forall_replicate. unfold UINT64_MODULUS. lia. }
  split; [|done]. unfold wrapped, counters, sized. simpl.
  split; [done|]. split; [by rewrite length_insert|].
  split; [apply Forall_insert; [done|apply u64_range]|].
  split; [|intros _; apply line_lt_capacity].
  rewrite (total_insert _ _ old) by done. rewrite Htl, Htot.
  unfold u64. set (M := UINT64_MODULUS).
  assert (M ≠ 0) as HM by (unfold M, UINT64_MODULUS; lia).
  pose proof (Z.mod_eq (now - last_time sf) M HM) as E1.
  pose proof (Z.mod_eq (old + (now - last_time sf) mod M) M HM) as E2.
  exists (k - (now - last_time sf) / M - (old + (now - last_time sf) mod M) / M).
  lia.
Qed.

Lemma run_block_wrapped name blk : ∀ st t1,
  source_filename st = Some name →
  wrapped (file st) t1 →
  Forall (λ e, ev_now e ≠ 0 ∧ ∀ i, ev_heap e i = 0)
         (filter (λ e, nd_file e = name) blk) →
  (lines (file st) = None →
   ∀ e, head (filter (λ e, nd_file e = name) blk) = Some e →
        (last_line (file st) < nd_line e + 100)%nat) →
  ∃ st', run_block st blk = ([], Some st') ∧
         wrapped (file st') t1 ∧
         last_time (file st') =
           default (last_time (file st))
                   (last (ev_now <$> filter (λ e, nd_file e = name) blk)).
Proof.
  induction blk as [|e blk IH]; intros st t1 Hname Hw Hall Hfirst.
  { by exists st. }
  destruct (decide (nd_file e = name)) as [He|He].
  - rewrite filter_cons_True in Hall, Hfirst |- * by done.
    apply Forall_cons in Hall as [[Hnow Hheap] Hall].
    destruct (record_sample_wrapped (set_filename (Some name) (file st))
                (nd_line e) (ev_now e) (ev_heap e) t1)
      as (sf' & Hrs & Hw' & Ht' & Hlines').
    { done. }
    { done. }
    { done. }
    { intros Hnone. by apply Hfirst. }
    erewrite run_block_cons_ok; last first.
    { erewrite profiler_hook_same_file by done. by rewrite Hrs. }
    destruct (IH (set_file sf' st) t1) as (st' & Hrun & Hw'' & Ht'').
    { done. }
    { done. }
    { done. }
    { intros Hnone. done. }
    exists st'. rewrite Hrun. split; [done|]. split; [done|].
    rewrite Ht''. change (file (set_file sf' st)) with sf'. rewrite Ht', fmap_cons.
    destruct (ev_now <$> filter (λ e0, nd_file e0 = name) blk) as [|t ts] eqn:Hts;
      [done|]. rewrite last_cons_cons.
    by destruct (proj2 (last_is_Some (t :: ts)) ltac:(done)) as [x ->].
  - rewrite filter_cons_False in Hall, Hfirst |- * by done.
    erewrite run_block_cons_ok by (by eapply profiler_hook_other_file).
    destruct (IH st t1) as (st' & Hrun & Hrest); try done.
    exists st'. by rewrite Hrun.
Qed.

Lemma run_block_wrapped_fresh name blk : ∀ st e1 rest,
  source_filename st = Some name →
  last_time (file st) = 0 → lines (file st) = None → nlines (file st) = 0%nat →
  filter (λ e, nd_file e = name) blk = e1 :: rest →
  ev_now e1 ≠ 0 →
  Forall (λ e, ev_now e ≠ 0 ∧ ∀ i, ev_heap e i = 0) rest →
  (∀ e2, head rest = Some e2 → (nd_line e1 < nd_line e2 + 100)%nat) →
  ∃ st', run_block st blk = ([], Some st') ∧
         wrapped (file st') (ev_now e1) ∧
         last_time (file st') = default (ev_now e1) (last (ev_now <$> rest)).
Proof.
  induction blk as [|e blk IH]; intros st e1 rest Hname Ht Hl Hn Hf Hnow Hall Hfirst.
  { done. }
  destruct (decide (nd_file e = name)) as [He|He].
  - rewrite filter_cons_True in Hf by done. simplify_eq.
    erewrite run_block_cons_ok; last first.
    { erewrite profiler_hook_same_file by done.
      by rewrite record_sample_first. }
    destruct (run_block_wrapped (nd_file e1) blk
                (set_file (set_last (ev_now e1) (nd_line e1)
                             (set_filename (Some (nd_file e1)) (file st))) st)
                (ev_now e1))
      as (st' & Hrun & Hw & Hlast).
    { done. }
    { unfold wrapped, sized, counters. simpl. rewrite Hl. simpl.
      split; [done|]. split; [done|]. split; [done|].
      split; [exists 0; unfold total; simpl; lia|done]. }
    { done. }
    { done. }
    exists st'. by rewrite Hrun.
  - rewrite filter_cons_False in Hf by done.
    erewrite run_block_cons_ok by (by eapply profiler_hook_other_file).
    destruct (IH st e1 rest) as (st' & Hrun & Hrest); try done.
    exists st'. by rewrite Hrun.
Qed.

(** X10.  Whatever the clock does, as long as it never reads 0: in the
    first session of a process in single file mode, if the first store
    lands inside the array it allocates and the slots appended by
    [realloc] read as zero, the session returns, every counter is a
    64-bit value and the counters add up, modulo 2^64, to the last time
    stamp of the file minus its first.  A clock that steps back does not
    lose time; it wraps a counter. *)
Theorem conservation_modulo_wrap stale name blk e1 rest :
  filter (λ e, nd_file e = name) blk = e1 :: rest →
  Forall (λ e, ev_now e ≠ 0) (e1 :: rest) →
  Forall (λ e, ∀ i, ev_heap e i = 0) rest →
  (∀ e2, head rest = Some e2 → (nd_line e1 < nd_line e2 + 100)%nat) →
  ∃ ary st',
    lineprof stale Init_rblineprof (VString name) (Some blk)
      = Returned {[ name := ary ]} st' ∧
    Forall (λ c, 0 ≤ c < UINT64_MODULUS) ary ∧
    u64 (total ary) = u64 (default (ev_now e1) (last (ev_now <$> rest)) - ev_now e1).
Proof.
  intros Hf Hclock Hheap Hfirst.
  destruct (lineprof_string stale Init_rblineprof name blk) as [tbl ->]; [done|].
  apply Forall_cons in Hclock as [Hnow Hclock].
  destruct (run_block_wrapped_fresh name blk
              (mk_rblineprof true (Some name) (free_lines (file Init_rblineprof))
                 (source_regex Init_rblineprof) tbl) e1 rest)
    as (st' & -> & Hw & Hlast); try done.
  { apply Forall_forall. intros e He. split.
    - by apply (proj1 (Forall_forall _ _) Hclock).
    - by apply (proj1 (Forall_forall _ _) Hheap). }
  destruct Hw as (_ & Hsz & Hrange & [k Htot] & _).
  rewrite (line_array_sized _ Hsz).
  eexists _, _. split; [done|]. split; [done|].
  fold (counters (file st')). rewrite Htot, Hlast.
  unfold u64. apply Z_mod_plus_full.
Qed.

(** X10 on a clock that steps back from 1000 to 400 between two events. *)
Lemma conservation_modulo_wrap_witness :
  ∃ ary st',
    lineprof ST_CONTINUE Init_rblineprof (VString "a")
      (Some [ev "a" 1 100; ev "a" 2 1000; ev "a" 3 400; ev "b" 1 450; ev "a" 4 500])
      = Returned {[ "a" := ary ]} st' ∧
    Forall (λ c, 0 ≤ c < UINT64_MODULUS) ary ∧
    u64 (total ary) = u64 (500 - 100).
Proof.
  apply (conservation_modulo_wrap ST_CONTINUE "a"
           [ev "a" 1 100; ev "a" 2 1000; ev "a" 3 400; ev "b" 1 450; ev "a" 4 500]
           (ev "a" 1 100) [ev "a" 2 1000; ev "a" 3 400; ev "a" 4 500]).
  - reflexivity.
  - repeat constructor; done.
  - repeat constructor.
  - intros e2 [= <-]. simpl. lia.
Defined.

(** ** From one session to the next *)

Lemma lineprof_string_cleanup stale st name body :
  enabled st = false →
  ∃ tbl,
    st_foreach (files st) (cleanup_files stale) () = Some (tbl, ()) ∧
    lineprof stale st (VString name) (Some body) =
      match run_block (mk_rblineprof true (Some name) (free_lines (file st))
                         (source_regex st) tbl) body with
      | (_, None) => Crashed
      | (_, Some st3) =>
          match line_array (file st3) with
          | None => Crashed
          | Some ary => Returned {[ name := ary ]} (set_enabled false st3)
          end
      end.
Proof.
  intros Hen. unfold lineprof. rewrite Hen. simpl.
  destruct (cleanup_Some stale
              (mk_rblineprof (enabled st) (Some name) (file st) (source_regex st) (files st)))
    as (tbl & Htbl & ->).
  exists tbl. split; [done|]. unfold set_enabled, set_file, set_files. simpl.
  destruct (run_block _ body) as [log [st3|]] eqn:Hrun; [|done].
  apply run_block_mode in Hrun as (Hname & _ & _). simpl in Hname.
  unfold report. simpl. rewrite Hname.
  by destruct (line_array (file st3)).
Qed.

Lemma run_block_single_registry blk : ∀ st log st',
  is_Some (source_filename st) → run_block st blk = (log, Some st') →
  log = [] ∧ files st' = files st.
Proof.
  induction blk as [|e blk IH]; intros st log st' Hname H; simpl in H.
  { by simplify_eq. }
  destruct (profiler_hook st e) as [log1 [st1|]] eqn:Hh; [|done].
  destruct (run_block st1 blk) as [log2 r] eqn:Hr. simplify_eq.
  destruct (profiler_hook_single_registry _ _ _ _ Hname Hh) as [-> <-].
  destruct (profiler_hook_mode _ _ _ _ Hh) as (Hname1 & _ & _).
  rewrite <- Hname1 in Hname. by destruct (IH _ _ _ Hname Hr) as [-> ->].
Qed.

(** X11.  In a state whose registry holds no rejected file - the state
    at start-up and the state after every call that returned a report -
    the value [st_foreach] reads when [cleanup_files] returns none plays
    no part in a call of [lineprof].  A call that returns leaves such a
    state again, and after a String call the registry is empty. *)
Theorem sessions_start_from_an_empty_registry stale stale' st filename_ blk :
  matched_only (files st) →
  lineprof stale st filename_ blk = lineprof stale' st filename_ blk ∧
  ∀ rep st',
    lineprof stale st filename_ blk = Returned rep st' →
    matched_only (files st') ∧
    (∀ name, filename_ = VString name → files st' = ∅).
Proof.
  intros Hm. split.
  - unfold lineprof. destruct blk as [body|]; [|done].
    destruct (enabled st); [done|].
    destruct filename_ as [name|re|]; simpl; [| |done];
      unfold cleanup; simpl; by rewrite !cleanup_matched_only.
  - intros rep st' H.
    assert (enabled st = false) as Hen.
    { destruct (enabled st) eqn:Hen; [|done]. unfold lineprof in H.
      rewrite Hen in H. by destruct blk. }
    destruct blk as [body|]; [|done].
    destruct filename_ as [name|re|].
    + destruct (lineprof_string_cleanup stale st name body Hen) as (tbl & Hclean & Heq).
      rewrite cleanup_matched_only in Hclean by done. simplify_eq.
      rewrite Heq in H.
      destruct (run_block _ body) as [log [st3|]] eqn:Hrun; [|done].
      destruct (line_array (file st3)); [|done]. simplify_eq.
      apply run_block_single_registry in Hrun as [_ Hfiles]; [|by eexists].
      simpl in *. rewrite Hfiles. split; [by intros k|done].
    + destruct (lineprof_regexp stale st re body Hen) as (tbl & _ & Heq).
      rewrite Heq in H.
      destruct (run_block _ body) as [log [st3|]] eqn:Hrun; [|done].
      destruct (st_foreach (files st3) summarize_files ∅) as [[t ret]|] eqn:Hsum; [|done].
      simplify_eq. unfold st_foreach in Hsum.
      apply summarize_entries in Hsum as [Hq _].
      split; [|done]. intros k Hk. apply (Hq k). by apply elem_of_map_to_list.
    + unfold lineprof in H. by rewrite Hen in H.
Qed.

(** X11 on the state a first pattern session leaves. *)
Lemma sessions_start_from_an_empty_registry_witness :
  let st := mk_rblineprof false None zeroed_sourcefile (Some only_a)
              {[ "a" := Ptr (mk_sourcefile (Some "a")
                               (Some (<[1%nat := 4]> (calloc_lines 102))) 102 5 2) ]} in
  lineprof ST_STOP st (VString "b") (Some [ev "b" 3 7])
    = lineprof ST_DELETE st (VString "b") (Some [ev "b" 3 7]) ∧
  ∀ rep st',
    lineprof ST_STOP st (VString "b") (Some [ev "b" 3 7]) = Returned rep st' →
    matched_only (files st') ∧
    (∀ name, VString "b" = VString name → files st' = ∅).
Proof.
  intros st.
  apply (sessions_start_from_an_empty_registry ST_STOP ST_DELETE st
           (VString "b") (Some [ev "b" 3 7])).
  intros k. unfold st. simpl.
  destruct (decide (k = "a")) as [->|Hne].
  - by rewrite lookup_singleton_eq.
  - by rewrite lookup_singleton_ne.
Defined.

(** ** The report of a single file session *)

Lemma record_sample_size sf line now heap sf' :
  sized sf → record_sample sf line now heap = Some sf' →
  nlines sf' = nlines sf ∨ nlines sf' = (line + 100)%nat.
Proof.
  intros Hsz H.
  destruct (record_sample_Some _ _ _ _ _ Hsz H)
    as [[_ ->]|(_ & _ & l & old & _ & _ & _ & _ & ->)]; [by left|].
  simpl. unfold capacity_at_store. case_decide; auto.
Qed.

Lemma run_block_single_size name blk : ∀ st log st',
  source_filename st = Some name → sized (file st) →
  run_block st blk = (log, Some st') →
  nlines (file st') = nlines (file st) ∨
  ∃ e, e ∈ blk ∧ nd_file e = name ∧ nlines (file st') = (nd_line e + 100)%nat.
Proof.
  induction blk as [|e blk IH]; intros st log st' Hname Hsz H; simpl in H.
  { simplify_eq. by left. }
  destruct (profiler_hook st e) as [log1 [st1|]] eqn:Hh; [|done].
  destruct (run_block st1 blk) as [log2 r] eqn:Hr. simplify_eq.
  destruct (profiler_hook_mode _ _ _ _ Hh) as (Hname1 & _ & _).
  rewrite Hname in Hname1.
  pose proof (profiler_hook_sized _ _ _ _ Hsz Hh) as Hsz1.
  destruct (IH _ _ _ Hname1 Hsz1 Hr) as [Heq|(e' & Hin & He' & Hn)]; last first.
  { right. exists e'. split; [by right|done]. }
  rewrite Heq.
  destruct (decide (nd_file e = name)) as [He|He].
  - rewrite (profiler_hook_same_file _ name) in Hh by done.
    simplify_eq. open_bind.
    match goal with H : record_sample _ _ _ _ = Some _ |- _ =>
      apply record_sample_size in H as [->| ->]; [by left| |done] end.
    right. exists e. split; [by left|done].
  - rewrite (profiler_hook_other_file _ name) in Hh by done. simplify_eq. by left.
Qed.

(** X12.  The report of a single file session is the counter array of
    the single file structure, as long as its recorded size; and that
    size is 0 or the line of some event of the file in the block plus
    100 - the line that happened to trigger the last allocation, not the
    highest line seen. *)
Theorem single_file_report_is_the_array stale st name blk rep st' :
  sized (file st) →
  lineprof stale st (VString name) (Some blk) = Returned rep st' →
  rep = {[ name := counters (file st') ]} ∧
  length (counters (file st')) = nlines (file st') ∧
  (nlines (file st') = 0%nat ∨
   ∃ e, e ∈ blk ∧ nd_file e = name ∧ nlines (file st') = (nd_line e + 100)%nat).
Proof.
  intros Hsz H.
  assert (enabled st = false) as Hen.
  { destruct (enabled st) eqn:Hen; [|done]. unfold lineprof in H. by rewrite Hen in H. }
  destruct (lineprof_string stale st name blk Hen) as [tbl Heq].
  rewrite Heq in H. clear Heq.
  destruct (run_block _ blk) as [log [st3|]] eqn:Hrun; [|done].
  pose proof (run_block_sized blk
                (mk_rblineprof true (Some name) (free_lines (file st))
                   (source_regex st) tbl)
                log st3 (sized_free_lines_sized _ Hsz) Hrun) as Hsz3.
  rewrite (line_array_sized _ Hsz3) in H. simplify_eq.
  change (file (set_enabled false st3)) with (file st3).
  split; [done|]. split; [by apply length_counters|].
  destruct (run_block_single_size name blk
              (mk_rblineprof true (Some name) (free_lines (file st))
                 (source_regex st) tbl)
              log st3 eq_refl (sized_free_lines_sized _ Hsz) Hrun) as [Hn|?]; [|by right].
  left. rewrite Hn. simpl. by destruct (sized_free_lines _ Hsz) as [_ ->].
Qed.

(** X12 on a first session whose events are at lines 1, 2 and 50: the
    array has 102 counters. *)
Lemma single_file_report_is_the_array_witness :
  let blk := [ev "a" 1 10; ev "a" 2 20; ev "a" 50 30] in
  let st' := mk_rblineprof false (Some "a")
               (mk_sourcefile (Some "a")
                  (Some (<[2%nat := 10]> (<[1%nat := 10]> (calloc_lines 102))))
                  102 30 50) None ∅ in
  ({[ "a" := <[2%nat := 10]> (<[1%nat := 10]> (calloc_lines 102)) ]}
     : gmap string (list Z)) = {[ "a" := counters (file st') ]} ∧
  length (counters (file st')) = nlines (file st') ∧
  (nlines (file st') = 0%nat ∨
   ∃ e, e ∈ blk ∧ nd_file e = "a" ∧ nlines (file st') = (nd_line e + 100)%nat).
Proof.
  intros blk st'.
  apply (single_file_report_is_the_array ST_CONTINUE Init_rblineprof "a" blk
           {[ "a" := <[2%nat := 10]> (<[1%nat := 10]> (calloc_lines 102)) ]} st').
  - reflexivity.
  - vm_compute. reflexivity.
Defined.

(** ** The mark function *)

Lemma gc_mark_entries entries : ∀ tbl acc,
  st_foreach_entries gc_mark_files entries tbl acc
    = Some (tbl, acc ++ (MarkRecord <$> entries.*2)).
Proof.
  induction entries as [|[key rec] entries IH]; intros tbl acc; simpl.
  { by rewrite app_nil_r. }
  rewrite IH. by rewrite <- app_assoc.
Qed.

(** X13.  The mark function hands nothing to [rb_source_filename] while
    the profiler is disabled and the configured file name in single file
    mode.  In pattern mode it hands over one value per registry entry,
    and that value is the record cast to a string, never the file name
    the entry is stored under; the registry is left as it is. *)
Theorem mark_passes_records_not_names st :
  (enabled st = false → lineprof_mark st = []) ∧
  (enabled st = true → ∀ name, source_filename st = Some name →
   lineprof_mark st = [MarkName name]) ∧
  (enabled st = true → source_filename st = None →
   st_foreach (files st) gc_mark_files []
     = Some (files st, MarkRecord <$> (map_to_list (files st)).*2) ∧
   lineprof_mark st = MarkRecord <$> (map_to_list (files st)).*2 ∧
   length (lineprof_mark st) = size (files st) ∧
   ∀ name, MarkName name ∉ lineprof_mark st).
Proof.
  unfold lineprof_mark. split; [by intros ->|]. split.
  - by intros -> name ->.
  - intros -> ->. unfold st_foreach. rewrite gc_mark_entries. simpl.
    split; [done|]. split; [done|]. split.
    + by rewrite !length_fmap, length_map_to_list.
    + intros name [r [? _]]%list_elem_of_fmap. done.
Qed.

(** X13 on a pattern session under way that has seen ["a"] and ["b"]. *)
Lemma mark_passes_records_not_names_witness :
  let st := mk_rblineprof true None zeroed_sourcefile (Some only_a)
              (<[ "b" := Qnil ]>
                 {[ "a" := Ptr (mk_sourcefile (Some "a") None 0 1 1) ]}) in
  length (lineprof_mark st) = 2%nat ∧
  MarkRecord Qnil ∈ lineprof_mark st ∧
  ∀ name, MarkName name ∉ lineprof_mark st.
Proof.
  intros st.
  destruct (mark_passes_records_not_names st) as (_ & _ & Hpattern).
  destruct (Hpattern eq_refl eq_refl) as (_ & Heq & Hlen & Hnot).
  split; [|split; [|exact Hnot]].
  - rewrite Hlen. vm_compute. reflexivity.
  - rewrite Heq. vm_compute. apply list_elem_of_In. simpl. tauto.
Defined.
